(** * Weather.cpp: the per-zone weather cycle

    A shallow embedding of [src/server/game/Weather/Weather.cpp]: the
    transition algorithm [Weather::ReGenerate], the broadcast
    [Weather::UpdateWeather], the setter [Weather::SetWeather], the tick
    [Weather::Update] and the classifier [Weather::GetWeatherState].

    [float] is IEEE-754 binary32, modelled with the Standard Library's
    executable specification of floating-point numbers ([SpecFloat]) at
    precision 24 and maximal exponent 128. *)

From Stdlib Require Import ZArith List String Bool Lia.
From Stdlib Require Import Floats.SpecFloat.
Import ListNotations.
Local Open Scope Z_scope.

(** ** binary32 *)

Definition float32 : Type := spec_float.

Definition f32_prec : Z := 24.
Definition f32_emax : Z := 128.

(** A value is a binary32 number when its mantissa and exponent are canonical. *)
Definition is_f32 (x : float32) : bool := valid_binary f32_prec f32_emax x.

Definition is_nan (x : float32) : bool :=
  match x with S754_nan => true | _ => false end.

(** [a < b], [a <= b], [a == b] of C++ on [float]: false as soon as one side is NaN. *)
Definition f32_lt (a b : float32) : bool := SFltb a b.
Definition f32_le (a b : float32) : bool := SFleb a b.
Definition f32_eq (a b : float32) : bool := SFeqb a b.
(** [a > b] and [a >= b] are the same tests with the operands swapped. *)
Definition f32_gt (a b : float32) : bool := SFltb b a.
Definition f32_ge (a b : float32) : bool := SFleb b a.
(** [a != b] is the negation of [==]: true when one side is NaN. *)
Definition f32_ne (a b : float32) : bool := negb (SFeqb a b).

Definition f32_add (a b : float32) : float32 := SFadd f32_prec f32_emax a b.
Definition f32_sub (a b : float32) : float32 := SFsub f32_prec f32_emax a b.
Definition f32_mul (a b : float32) : float32 := SFmul f32_prec f32_emax a b.

(** The binary32 value of an integer (exact when it fits the mantissa). *)
Definition f32_of_Z (n : Z) : float32 := binary_normalize f32_prec f32_emax n 0 false.

(** The binary32 value of the decimal literal [num/den], rounded to nearest even. *)
Definition f32_lit (num den : Z) : float32 :=
  SFdiv f32_prec f32_emax (f32_of_Z num) (f32_of_Z den).

(** The literals of Weather.cpp, by mantissa and exponent (bit pattern aside). *)
Definition f_zero : float32 := S754_zero false.                    (* 0, 0.0f            *)
Definition f_one : float32 := S754_finite false 8388608 (-23).     (* 1       0x3F800000 *)
Definition f_0_33333334 : float32 := S754_finite false 11184811 (-25). (* 0x3EAAAAAB *)
Definition f_0_6666667 : float32 := S754_finite false 11184811 (-24).  (* 0x3F2AAAAB *)
Definition f_0_9999 : float32 := S754_finite false 16775538 (-24). (* 0x3F7FF972 *)
Definition f_0_0001 : float32 := S754_finite false 13743895 (-37). (* 0x38D1B717 *)
Definition f_0_27 : float32 := S754_finite false 9059697 (-25).    (* 0x3E8A3D71 *)
Definition f_0_40 : float32 := S754_finite false 13421773 (-25).   (* 0x3ECCCCCD *)
Definition f_0_70 : float32 := S754_finite false 11744051 (-24).   (* 0x3F333333 *)
Definition f_0_3333 : float32 := S754_finite false 11183692 (-25). (* 0x3EAAA64C *)
Definition f_0_3334 : float32 := S754_finite false 11187048 (-25). (* 0x3EAAB368 *)
Definition f_0_6667 : float32 := S754_finite false 11185370 (-24). (* 0x3F2AACDA *)

(** ** Enumerations (SharedDefines.h / Weather.h, as Weather.cpp uses them) *)

(** The values [m_type] can hold: the six enumerators, and the values that
    have no enumerator, which SetWeather stores unchecked (line 303) and the
    [default:] labels of lines 277 and 344 receive.  [WeatherType_other v]
    is the one whose integer is [v], an integer of no enumerator. *)
Inductive WeatherType : Type :=
| WEATHER_TYPE_FINE
| WEATHER_TYPE_RAIN
| WEATHER_TYPE_SNOW
| WEATHER_TYPE_STORM
| WEATHER_TYPE_THUNDERS
| WEATHER_TYPE_BLACKRAIN
| WeatherType_other (value : Z).

(** No enumerator names the value. *)
Definition unrecognized (t : WeatherType) : bool :=
  match t with WeatherType_other _ => true | _ => false end.

Inductive WeatherState : Type :=
| WEATHER_STATE_FINE
| WEATHER_STATE_FOG
| WEATHER_STATE_LIGHT_RAIN
| WEATHER_STATE_MEDIUM_RAIN
| WEATHER_STATE_HEAVY_RAIN
| WEATHER_STATE_LIGHT_SNOW
| WEATHER_STATE_MEDIUM_SNOW
| WEATHER_STATE_HEAVY_SNOW
| WEATHER_STATE_LIGHT_SANDSTORM
| WEATHER_STATE_MEDIUM_SANDSTORM
| WEATHER_STATE_HEAVY_SANDSTORM
| WEATHER_STATE_THUNDERS
| WEATHER_STATE_BLACKRAIN.

Definition WeatherType_eqb (a b : WeatherType) : bool :=
  match a, b with
  | WEATHER_TYPE_FINE, WEATHER_TYPE_FINE
  | WEATHER_TYPE_RAIN, WEATHER_TYPE_RAIN
  | WEATHER_TYPE_SNOW, WEATHER_TYPE_SNOW
  | WEATHER_TYPE_STORM, WEATHER_TYPE_STORM
  | WEATHER_TYPE_THUNDERS, WEATHER_TYPE_THUNDERS
  | WEATHER_TYPE_BLACKRAIN, WEATHER_TYPE_BLACKRAIN => true
  | WeatherType_other v, WeatherType_other v' => v =? v'
  | _, _ => false
  end.

(** ** Weather::GetWeatherState, as a function of the two fields it reads.
    The [default:] label shares the arm of [WEATHER_TYPE_FINE]. *)
Definition Classify (type : WeatherType) (intensity : float32) : WeatherState :=
  if f32_lt intensity f_0_27 then WEATHER_STATE_FINE
  else
    match type with
    | WEATHER_TYPE_RAIN =>
        if f32_lt intensity f_0_40 then WEATHER_STATE_LIGHT_RAIN
        else if f32_lt intensity f_0_70 then WEATHER_STATE_MEDIUM_RAIN
        else WEATHER_STATE_HEAVY_RAIN
    | WEATHER_TYPE_SNOW =>
        if f32_lt intensity f_0_40 then WEATHER_STATE_LIGHT_SNOW
        else if f32_lt intensity f_0_70 then WEATHER_STATE_MEDIUM_SNOW
        else WEATHER_STATE_HEAVY_SNOW
    | WEATHER_TYPE_STORM =>
        if f32_lt intensity f_0_40 then WEATHER_STATE_LIGHT_SANDSTORM
        else if f32_lt intensity f_0_70 then WEATHER_STATE_MEDIUM_SANDSTORM
        else WEATHER_STATE_HEAVY_SANDSTORM
    | WEATHER_TYPE_BLACKRAIN => WEATHER_STATE_BLACKRAIN
    | WEATHER_TYPE_THUNDERS => WEATHER_STATE_THUNDERS
    | WEATHER_TYPE_FINE | WeatherType_other _ => WEATHER_STATE_FINE
    end.

(** ** Data (Weather.h, WeatherMgr.h) *)

(** [uint32] arithmetic wraps modulo 2^32. *)
Definition u32 (x : Z) : Z := x mod 4294967296.

Definition WEATHER_SEASONS : Z := 4.

Record WeatherSeasonChances : Type := {
  rainChance : Z;
  snowChance : Z;
  stormChance : Z
}.

Record WeatherData : Type := {
  data : list WeatherSeasonChances;   (* WeatherSeasonChances data[WEATHER_SEASONS] *)
  ScriptId : Z
}.

(** [data[season]]: the index is always below [WEATHER_SEASONS] (see [season_of_yday]). *)
Definition data_at (wd : WeatherData) (season : Z) : WeatherSeasonChances :=
  nth (Z.to_nat season) (data wd) {| rainChance := 0; snowChance := 0; stormChance := 0 |}.

(** Modelled from the spec: [IntervalTimer] (Timer.h) is not part of the
    sources at hand.  The spec: Tick "advances the internal timer by
    elapsed"; "when the timer has reached its threshold, it resets to zero". *)
Record IntervalTimer : Type := {
  timer_interval : Z;
  timer_current : Z
}.

Definition IntervalTimer_Update (diff : Z) (t : IntervalTimer) : IntervalTimer :=
  {| timer_interval := timer_interval t; timer_current := timer_current t + diff |}.
Definition IntervalTimer_SetCurrent (c : Z) (t : IntervalTimer) : IntervalTimer :=
  {| timer_interval := timer_interval t; timer_current := c |}.
Definition IntervalTimer_Passed (t : IntervalTimer) : bool :=
  timer_interval t <=? timer_current t.
Definition IntervalTimer_Reset (t : IntervalTimer) : IntervalTimer :=
  {| timer_interval := timer_interval t; timer_current := 0 |}.

(** The fields of [class Weather] that Weather.cpp reads and writes
    ([m_map] is the collaborator behind [World] below). *)
Record Weather : Type := {
  m_zone : Z;
  m_timer : IntervalTimer;
  m_type : WeatherType;
  m_intensity : float32;
  m_weatherChances : option WeatherData   (* WeatherData const*, possibly null *)
}.

(** What the object does to its collaborators, in the order it happens. *)
Inductive Event : Type :=
| LogGenerating (seasonName : string) (zone : Z)             (* TC_LOG_INFO, line 113 *)
| LogChange (zone : Z) (wthstr : string)                     (* TC_LOG_INFO, line 282 *)
| SendZoneMessage (zone : Z) (state : WeatherState) (intensity : float32)
| OnWeatherChange (state : WeatherState) (intensity : float32) (* sScriptMgr *)
| FireOnWeatherChange                                        (* FIRE_ID(.., Map, OnWeatherChange, ..) *)
| OnWeatherUpdate (diff : Z)                                 (* sScriptMgr *)
| FireOnWeatherUpdate.                                       (* FIRE_ID(.., Map, OnWeatherUpdate, ..) *)

(** The collaborators of the object: the random engine (two tapes of raw
    outputs and the position reached), the calendar, the map, and the trace
    of what has been asked of them. *)
Record World : Type := {
  urand_tape : nat -> Z;
  norm_tape : nat -> float32;
  rng_pos : nat;
  game_yday : Z;             (* tm_yday of localtime_r(GameTime::GetGameTime()) *)
  zone_has_players : bool;   (* what Map::SendZoneMessage answers *)
  events : list Event        (* oldest first *)
}.

Record Sys : Type := { self : Weather; world : World }.

(** *** Field updates *)

Definition with_timer (t : IntervalTimer) (s : Sys) : Sys :=
  {| self := {| m_zone := m_zone (self s); m_timer := t; m_type := m_type (self s);
                m_intensity := m_intensity (self s);
                m_weatherChances := m_weatherChances (self s) |};
     world := world s |}.

Definition with_type (t : WeatherType) (s : Sys) : Sys :=
  {| self := {| m_zone := m_zone (self s); m_timer := m_timer (self s); m_type := t;
                m_intensity := m_intensity (self s);
                m_weatherChances := m_weatherChances (self s) |};
     world := world s |}.

Definition with_intensity (i : float32) (s : Sys) : Sys :=
  {| self := {| m_zone := m_zone (self s); m_timer := m_timer (self s);
                m_type := m_type (self s); m_intensity := i;
                m_weatherChances := m_weatherChances (self s) |};
     world := world s |}.

Definition with_event (e : Event) (s : Sys) : Sys :=
  {| self := self s;
     world := {| urand_tape := urand_tape (world s); norm_tape := norm_tape (world s);
                 rng_pos := rng_pos (world s); game_yday := game_yday (world s);
                 zone_has_players := zone_has_players (world s);
                 events := events (world s) ++ [e] |} |}.

Definition with_rng_next (s : Sys) : Sys :=
  {| self := self s;
     world := {| urand_tape := urand_tape (world s); norm_tape := norm_tape (world s);
                 rng_pos := S (rng_pos (world s)); game_yday := game_yday (world s);
                 zone_has_players := zone_has_players (world s);
                 events := events (world s) |} |}.

(** ** Statements: state passing with early [return] *)

Inductive flow (R A : Type) : Type :=
| Returned (r : R)      (* the enclosing function has returned [r] *)
| Next (a : A).         (* fall through to the next statement *)
Arguments Returned {R A} r.
Arguments Next {R A} a.

Definition Stmt (R A : Type) : Type := Sys -> flow R A * Sys.

Definition pure {R A} (a : A) : Stmt R A := fun s => (Next a, s).
Definition return_ {R A} (r : R) : Stmt R A := fun s => (Returned r, s).
Definition bind {R A B} (m : Stmt R A) (k : A -> Stmt R B) : Stmt R B :=
  fun s => match m s with
           | (Returned r, s') => (Returned r, s')
           | (Next a, s') => k a s'
           end.

Declare Scope stmt_scope.
Delimit Scope stmt_scope with stmt.
Notation "x <- m ;; k" := (bind m (fun x => k))
  (at level 61, m at next level, right associativity) : stmt_scope.
Notation "m ;; k" := (bind m (fun _ => k))
  (at level 61, right associativity) : stmt_scope.
Local Open Scope stmt_scope.

(** [if (c) body] without [else]. *)
Definition when {R} (c : bool) (body : Stmt R unit) : Stmt R unit :=
  if c then body else pure tt.

Definition read {R A} (f : Sys -> A) : Stmt R A := fun s => (Next (f s), s).
Definition modify {R} (f : Sys -> Sys) : Stmt R unit := fun s => (Next tt, f s).

(** A function body run to its result. *)
Definition run {R} (body : Stmt R R) (s : Sys) : R * Sys :=
  match body s with
  | (Returned r, s') => (r, s')
  | (Next r, s') => (r, s')
  end.

(** A call of a function from inside another body. *)
Definition call {R A} (f : Sys -> A * Sys) : Stmt R A :=
  fun s => let (a, s') := f s in (Next a, s').

Definition emit {R} (e : Event) : Stmt R unit := modify (with_event e).

(** *** The random source *)

(** Modelled from the spec: [urand] and [rand_norm] (Random.h) are not part
    of the sources at hand; the spec has "a uniform integer u in [0,99]",
    "uniform integer rnd in [1,100]" and a "normal-random" draw.  The engine
    is a tape of raw outputs read in order: [urand(min, max)] maps the next
    raw output into [min, max], and [(float)rand_norm()] is the next entry
    of the tape of floats. *)
Definition urand_value (min max : Z) (w : World) : Z :=
  min + urand_tape w (rng_pos w) mod (max - min + 1).

Definition urand {R} (min max : Z) : Stmt R Z :=
  fun s => (Next (urand_value min max (world s)), with_rng_next s).

Definition rand_norm_f {R} : Stmt R float32 :=
  fun s => (Next (norm_tape (world s) (rng_pos (world s))), with_rng_next s).

(** *** Field reads *)

Definition cur_type (s : Sys) : WeatherType := m_type (self s).
Definition cur_intensity (s : Sys) : float32 := m_intensity (self s).
Definition cur_zone (s : Sys) : Z := m_zone (self s).
Definition cur_timer (s : Sys) : IntervalTimer := m_timer (self s).

Definition not_fine (t : WeatherType) : bool :=
  negb (WeatherType_eqb t WEATHER_TYPE_FINE).   (* m_type != WEATHER_TYPE_FINE *)

(** Weather::GetWeatherState on the object. *)
Definition GetWeatherState (s : Sys) : WeatherState :=
  Classify (cur_type s) (cur_intensity s).

(** ** Weather::ReGenerate *)

(** Line 109: [((ltime.tm_yday - 78 + 365)/91)%4] in [int] (quotient and
    remainder truncate towards zero), stored in a [uint32]. *)
Definition season_of_yday (tm_yday : Z) : Z :=
  u32 (Z.rem (Z.quot (tm_yday - 78 + 365) 91) 4).

Definition seasonName (season : Z) : string :=
  nth (Z.to_nat season) ["spring"; "summer"; "fall"; "winter"]%string ""%string.

(** Lines 115-119, "Get fair". *)
Definition get_fair (u : Z) : Stmt bool unit :=
  i <- read cur_intensity ;;
  when ((u <? 60) && f32_lt i f_0_33333334)
    (modify (with_type WEATHER_TYPE_FINE) ;;
     modify (with_intensity f_zero)).

(** Lines 121-125, "Get better". *)
Definition get_better (u : Z) : Stmt bool unit :=
  t <- read cur_type ;;
  when ((u <? 60) && not_fine t)
    (i <- read cur_intensity ;;
     modify (with_intensity (f32_sub i f_0_33333334)) ;;
     return_ true).

(** Lines 127-131, "Get worse". *)
Definition get_worse (u : Z) : Stmt bool unit :=
  t <- read cur_type ;;
  when ((u <? 90) && not_fine t)
    (i <- read cur_intensity ;;
     modify (with_intensity (f32_add i f_0_33333334)) ;;
     return_ true).

(** Lines 157-158, "clear up". *)
Definition clear_up : Stmt bool unit :=
  modify (with_type WEATHER_TYPE_FINE) ;;
  modify (with_intensity f_zero).

(** Lines 133-160, "Radical change". *)
Definition radical_change : Stmt bool unit :=
  t <- read cur_type ;;
  when (not_fine t)
    (i <- read cur_intensity ;;
     if f32_lt i f_0_33333334 then
       modify (with_intensity f_0_9999) ;;       (* go nuts *)
       return_ true
     else
       (when (f32_gt i f_0_6666667)
          (rnd <- urand 0 99 ;;
           when (rnd <? 50)
             (i' <- read cur_intensity ;;
              modify (with_intensity (f32_sub i' f_0_6666667)) ;;
              return_ true)) ;;
        clear_up)).

(** Lines 162-202: the seasonal pick of a new weather and of its intensity,
    and the comparison with the values remembered at line 101. *)
Definition pick_new_weather (wd : WeatherData) (season u : Z)
    (old_type : WeatherType) (old_intensity : float32) : Stmt bool bool :=
  let chance1 := rainChance (data_at wd season) in
  let chance2 := u32 (chance1 + snowChance (data_at wd season)) in
  let chance3 := u32 (chance2 + stormChance (data_at wd season)) in
  rnd <- urand 1 100 ;;
  modify (with_type
            (if rnd <=? chance1 then WEATHER_TYPE_RAIN
             else if rnd <=? chance2 then WEATHER_TYPE_SNOW
             else if rnd <=? chance3 then WEATHER_TYPE_STORM
             else WEATHER_TYPE_FINE)) ;;
  t <- read cur_type ;;
  (if WeatherType_eqb t WEATHER_TYPE_FINE then
     modify (with_intensity f_zero)
   else if u <? 90 then
     n <- rand_norm_f ;;
     modify (with_intensity (f32_mul n f_0_3333))
   else
     rnd' <- urand 0 99 ;;
     if rnd' <? 50 then
       n <- rand_norm_f ;;
       modify (with_intensity (f32_add (f32_mul n f_0_3333) f_0_3334))
     else
       n <- rand_norm_f ;;
       modify (with_intensity (f32_add (f32_mul n f_0_3333) f_0_6667))) ;;
  t' <- read cur_type ;;
  i' <- read cur_intensity ;;
  return_ (negb (WeatherType_eqb t' old_type) || f32_ne i' old_intensity).

(** Lines 100-113: remember the old values, compute the season, log. *)
Definition log_generating (season : Z) : Stmt bool unit :=
  zone <- read cur_zone ;;
  emit (LogGenerating (seasonName season) zone).

Definition ReGenerate_body : Stmt bool bool :=
  chances <- read (fun s => m_weatherChances (self s)) ;;
  match chances with
  | None =>
      modify (with_type WEATHER_TYPE_FINE) ;;
      modify (with_intensity f_zero) ;;
      return_ false
  | Some wd =>
      u <- urand 0 99 ;;
      when (u <? 30) (return_ false) ;;
      old_type <- read cur_type ;;
      old_intensity <- read cur_intensity ;;
      tm_yday <- read (fun s => game_yday (world s)) ;;
      let season := season_of_yday tm_yday in
      log_generating season ;;
      get_fair u ;;
      get_better u ;;
      get_worse u ;;
      radical_change ;;
      pick_new_weather wd season u old_type old_intensity
  end.

Definition ReGenerate : Sys -> bool * Sys := run ReGenerate_body.

(** ** Weather::UpdateWeather *)

Definition wthstr_of (state : WeatherState) : string :=
  match state with
  | WEATHER_STATE_FOG => "fog"
  | WEATHER_STATE_LIGHT_RAIN => "light rain"
  | WEATHER_STATE_MEDIUM_RAIN => "medium rain"
  | WEATHER_STATE_HEAVY_RAIN => "heavy rain"
  | WEATHER_STATE_LIGHT_SNOW => "light snow"
  | WEATHER_STATE_MEDIUM_SNOW => "medium snow"
  | WEATHER_STATE_HEAVY_SNOW => "heavy snow"
  | WEATHER_STATE_LIGHT_SANDSTORM => "light sandstorm"
  | WEATHER_STATE_MEDIUM_SANDSTORM => "medium sandstorm"
  | WEATHER_STATE_HEAVY_SANDSTORM => "heavy sandstorm"
  | WEATHER_STATE_THUNDERS => "thunders"
  | WEATHER_STATE_BLACKRAIN => "blackrain"
  | WEATHER_STATE_FINE => "fine"
  end%string.

(** Lines 223-226. *)
Definition clamp_for_send : Stmt bool unit :=
  i <- read cur_intensity ;;
  if f32_ge i f_one then
    modify (with_intensity f_0_9999)
  else
    when (f32_lt i f_zero) (modify (with_intensity f_0_0001)).

(** What the two tests of lines 223-226 leave in [m_intensity]. *)
Definition clamp_intensity (i : float32) : float32 :=
  if f32_ge i f_one then f_0_9999
  else if f32_lt i f_zero then f_0_0001
  else i.

Definition UpdateWeather_body (triggerScripts : bool) : Stmt bool bool :=
  clamp_for_send ;;
  state <- read GetWeatherState ;;
  i' <- read cur_intensity ;;
  zone <- read cur_zone ;;
  emit (SendZoneMessage zone state i') ;;
  found <- read (fun s => zone_has_players (world s)) ;;
  when (negb found) (return_ false) ;;
  emit (LogChange zone (wthstr_of state)) ;;
  emit (OnWeatherChange state i') ;;
  when triggerScripts (emit FireOnWeatherChange) ;;
  return_ true.

Definition UpdateWeather (triggerScripts : bool) : Sys -> bool * Sys :=
  run (UpdateWeather_body triggerScripts).

(** Modelled from the spec: the default of [triggerScripts] is declared in
    Weather.h, which is not part of the sources at hand; the spec has the
    notification "optionally suppressible by a caller flag", so a call
    without the argument notifies. *)
Definition UpdateWeather_default : Sys -> bool * Sys := UpdateWeather true.

(** ** Weather::SetWeather *)

Definition SetWeather_body (type : WeatherType) (intensity : float32)
    (triggerScripts : bool) : Stmt unit unit :=
  t <- read cur_type ;;
  i <- read cur_intensity ;;
  when (WeatherType_eqb t type && f32_eq i intensity) (return_ tt) ;;
  modify (with_type type) ;;
  modify (with_intensity intensity) ;;
  _ <- call (UpdateWeather triggerScripts) ;;
  pure tt.

Definition SetWeather (type : WeatherType) (intensity : float32)
    (triggerScripts : bool) : Sys -> unit * Sys :=
  run (SetWeather_body type intensity triggerScripts).

(** ** Weather::Update *)

Definition Update_body (diff : Z) : Stmt bool bool :=
  t <- read cur_timer ;;
  (if 0 <=? timer_current t
   then modify (with_timer (IntervalTimer_Update diff t))
   else modify (with_timer (IntervalTimer_SetCurrent 0 t))) ;;
  t' <- read cur_timer ;;
  when (IntervalTimer_Passed t')
    (modify (with_timer (IntervalTimer_Reset t')) ;;
     changed <- call ReGenerate ;;
     when changed
       (updated <- call UpdateWeather_default ;;
        when (negb updated) (return_ false))) ;;
  emit (OnWeatherUpdate diff) ;;
  emit FireOnWeatherUpdate ;;
  return_ true.

Definition Update (diff : Z) : Sys -> bool * Sys := run (Update_body diff).

(** Successive ticks, as the owner of the zone drives them: it stops at the
    first tick that answers [false]. *)
Fixpoint run_ticks (diffs : list Z) (s : Sys) : bool * Sys :=
  match diffs with
  | [] => (true, s)
  | d :: rest =>
      match Update d s with
      | (true, s') => run_ticks rest s'
      | (false, s') => (false, s')
      end
  end.

(** The messages a trace sends to the zone. *)
Definition is_broadcast (e : Event) : bool :=
  match e with SendZoneMessage _ _ _ => true | _ => false end.

Definition broadcasts (l : list Event) : list Event := filter is_broadcast l.

Definition is_update_notification (e : Event) : bool :=
  match e with OnWeatherUpdate _ => true | FireOnWeatherUpdate => true | _ => false end.

(** What a call has added to the trace: the events of [s'] after those of [s]. *)
Definition events_since (s s' : Sys) : list Event :=
  skipn (List.length (events (world s))) (events (world s')).

(** ** The reference table of the classifier, as the spec words it:
    three bands for Rain, Snow and Storm ("sandstorm"), a single fixed state
    for BlackRain and for Thunders, Fine for Fine or unrecognized. *)
Inductive Band : Type := Light | Medium | Heavy.

Definition reference_state (t : WeatherType) (b : Band) : WeatherState :=
  match t, b with
  | WEATHER_TYPE_RAIN, Light => WEATHER_STATE_LIGHT_RAIN
  | WEATHER_TYPE_RAIN, Medium => WEATHER_STATE_MEDIUM_RAIN
  | WEATHER_TYPE_RAIN, Heavy => WEATHER_STATE_HEAVY_RAIN
  | WEATHER_TYPE_SNOW, Light => WEATHER_STATE_LIGHT_SNOW
  | WEATHER_TYPE_SNOW, Medium => WEATHER_STATE_MEDIUM_SNOW
  | WEATHER_TYPE_SNOW, Heavy => WEATHER_STATE_HEAVY_SNOW
  | WEATHER_TYPE_STORM, Light => WEATHER_STATE_LIGHT_SANDSTORM
  | WEATHER_TYPE_STORM, Medium => WEATHER_STATE_MEDIUM_SANDSTORM
  | WEATHER_TYPE_STORM, Heavy => WEATHER_STATE_HEAVY_SANDSTORM
  | WEATHER_TYPE_BLACKRAIN, _ => WEATHER_STATE_BLACKRAIN
  | WEATHER_TYPE_THUNDERS, _ => WEATHER_STATE_THUNDERS
  | WEATHER_TYPE_FINE, _ => WEATHER_STATE_FINE
  | WeatherType_other _, _ => WEATHER_STATE_FINE
  end.

(** The events of one [UpdateWeather], for the state and intensity it sends. *)
Definition UpdateWeather_events (triggerScripts found : bool) (zone : Z)
    (state : WeatherState) (c : float32) : list Event :=
  SendZoneMessage zone state c ::
  (if found then
     LogChange zone (wthstr_of state) :: OnWeatherChange state c ::
     (if triggerScripts then [FireOnWeatherChange] else [])
   else []).

Definition with_events (l : list Event) (s : Sys) : Sys :=
  fold_left (fun s' e => with_event e s') l s.

(** ** Reading ReGenerate in two halves *)

(** The state after the draw of [u] and the log line of line 113. *)
Definition after_draw (s : Sys) : Sys :=
  with_event
    (LogGenerating (seasonName (season_of_yday (game_yday (world s)))) (cur_zone s))
    (with_rng_next s).

(** Lines 115-202, for the draw [u] and the values remembered from [s0]. *)
Definition transitions (wd : WeatherData) (u : Z) (s0 : Sys) : Stmt bool bool :=
  get_fair u ;;
  get_better u ;;
  get_worse u ;;
  radical_change ;;
  pick_new_weather wd (season_of_yday (game_yday (world s0))) u
    (cur_type s0) (cur_intensity s0).

(** The four types the seasonal pick chooses among. *)
Definition seasonal (t : WeatherType) : bool :=
  match t with
  | WEATHER_TYPE_FINE | WEATHER_TYPE_RAIN | WEATHER_TYPE_SNOW | WEATHER_TYPE_STORM => true
  | WEATHER_TYPE_THUNDERS | WEATHER_TYPE_BLACKRAIN | WeatherType_other _ => false
  end.

(** A statement keeps the property [I] of the state, however it ends. *)
Definition preserves {R A} (I : Sys -> Prop) (m : Stmt R A) : Prop :=
  forall s, I s -> I (snd (m s)).

(** The state once the weather has been cleared (type Fine, intensity 0). *)
Definition cleared (s : Sys) : Sys :=
  with_intensity f_zero (with_type WEATHER_TYPE_FINE s).

(** What ReGenerate and UpdateWeather never touch. *)
Definition same_surroundings (s0 s' : Sys) : Prop :=
  m_zone (self s') = m_zone (self s0) /\
  m_timer (self s') = m_timer (self s0) /\
  m_weatherChances (self s') = m_weatherChances (self s0) /\
  urand_tape (world s') = urand_tape (world s0) /\
  norm_tape (world s') = norm_tape (world s0) /\
  game_yday (world s') = game_yday (world s0) /\
  zone_has_players (world s') = zone_has_players (world s0).

(** Lines 53-56 of Weather::Update. *)
Definition tick_timer (diff : Z) (s : Sys) : Sys :=
  with_timer
    (if 0 <=? timer_current (cur_timer s)
     then IntervalTimer_Update diff (cur_timer s)
     else IntervalTimer_SetCurrent 0 (cur_timer s)) s.

(** Lines 71-74 of Weather::Update. *)
Definition notify_update (diff : Z) (s : Sys) : Sys :=
  with_events [OnWeatherUpdate diff; FireOnWeatherUpdate] s.

(** Line 59: the timer has passed once [diff] is counted. *)
Definition timer_fires (diff : Z) (s : Sys) : bool :=
  IntervalTimer_Passed (cur_timer (tick_timer diff s)).

(** Lines 61-63: the outcome of the ReGenerate a firing tick performs. *)
Definition regenerated (diff : Z) (s : Sys) : bool * Sys :=
  ReGenerate
    (with_timer (IntervalTimer_Reset (cur_timer (tick_timer diff s))) (tick_timer diff s)).

(** No event of the list is the per-tick script notification. *)
Definition no_update_notification (l : list Event) : bool :=
  forallb (fun e => negb (is_update_notification e)) l.

(** Two states with the same object and the same random source; the
    calendar and the trace may differ. *)
Definition same_but_calendar (s1 s2 : Sys) : Prop :=
  self s1 = self s2 /\
  urand_tape (world s1) = urand_tape (world s2) /\
  norm_tape (world s1) = norm_tape (world s2) /\
  rng_pos (world s1) = rng_pos (world s2) /\
  zone_has_players (world s1) = zone_has_players (world s2).

(** Two statements that, from such states, end the same way in such states. *)
Definition agree {R A} (m1 m2 : Stmt R A) : Prop :=
  forall s1 s2, same_but_calendar s1 s2 ->
    fst (m1 s1) = fst (m2 s2) /\ same_but_calendar (snd (m1 s1)) (snd (m2 s2)).

(** ** Sample states *)

Definition f_0_5 : float32 := S754_finite false 8388608 (-24).      (* 0.5   0x3F000000 *)
Definition f_2 : float32 := S754_finite false 8388608 (-22).        (* 2.0   0x40000000 *)
Definition f_minus_1 : float32 := S754_finite true 8388608 (-23).   (* -1.0  0xBF800000 *)
Definition f_0_00005 : float32 := S754_finite false 13743895 (-38). (* 5e-5  0x3851B717 *)

Definition sample_row : WeatherSeasonChances :=
  {| rainChance := 50; snowChance := 30; stormChance := 10 |}.

Definition sample_chances : WeatherData :=
  {| data := [sample_row; sample_row; sample_row; sample_row]; ScriptId := 0 |}.

(** Every raw output is [u]. *)
Definition tape_const (u : Z) : nat -> Z := fun _ => u.

(** The first raw output is [u], the later ones are [rnd]. *)
Definition tape_two (u rnd : Z) : nat -> Z :=
  fun n => match n with O => u | S _ => rnd end.

(** Zone 1 with a timer of interval 1, on day [yday] of the year. *)
Definition sample_sys (t : WeatherType) (i : float32) (chances : option WeatherData)
    (tape : nat -> Z) (found : bool) (yday : Z) : Sys :=
  {| self := {| m_zone := 1;
                m_timer := {| timer_interval := 1; timer_current := 0 |};
                m_type := t; m_intensity := i; m_weatherChances := chances |};
     world := {| urand_tape := tape; norm_tape := fun _ => f_0_5; rng_pos := 0;
                 game_yday := yday; zone_has_players := found; events := [] |} |}.

(** Rain at exactly 1/3, the next draw 45 ("get better"), players around. *)
Definition sample_busy : Sys :=
  sample_sys WEATHER_TYPE_RAIN f_0_33333334 (Some sample_chances) (tape_const 45) true 100.

(** The same with nobody in the zone. *)
Definition sample_deserted : Sys :=
  sample_sys WEATHER_TYPE_RAIN f_0_33333334 (Some sample_chances) (tape_const 45) false 100.

(** Light rain (0.27), the next draw 45. *)
Definition sample_light : Sys :=
  sample_sys WEATHER_TYPE_RAIN f_0_27 (Some sample_chances) (tape_const 45) true 100.

(** Rain of the given intensity, the next draw 95 (radical change), then [rnd]. *)
Definition sample_radical (i : float32) (rnd : Z) : Sys :=
  sample_sys WEATHER_TYPE_RAIN i (Some sample_chances) (tape_two 95 rnd) true 100.

(** Rain of the given intensity in a zone without chance table. *)
Definition sample_unconfigured (i : float32) : Sys :=
  sample_sys WEATHER_TYPE_RAIN i None (tape_const 45) true 100.

(** A type without enumerator (value 5) at 0.5, the next draw 10. *)
Definition sample_unrecognized : Sys :=
  sample_sys (WeatherType_other 5) f_0_5 (Some sample_chances) (tape_const 10) true 100.

(** Fine weather in an occupied zone. *)
Definition sample_fine : Sys :=
  sample_sys WEATHER_TYPE_FINE f_zero (Some sample_chances) (tape_const 10) true 100.

(** ** The rest of Weather.cpp: constructor and messages to one player *)

Definition IntervalTimer_SetInterval (interval : Z) (t : IntervalTimer) : IntervalTimer :=
  {| timer_interval := interval; timer_current := timer_current t |}.

(** Weather::Weather (lines 40-48).  [timer0] is the default-constructed
    [IntervalTimer] and [interval] the value of
    [sWorld->getIntConfig(CONFIG_INTERVAL_CHANGEWEATHER)]; the log line of
    line 47 divides by constants of Common.h and leaves the object alone. *)
Definition Weather_new (zoneId : Z) (weatherChances : option WeatherData)
    (timer0 : IntervalTimer) (interval : Z) : Weather :=
  {| m_zone := zoneId;
     m_timer := IntervalTimer_SetInterval interval timer0;
     m_type := WEATHER_TYPE_FINE;
     m_intensity := f_zero;
     m_weatherChances := weatherChances |}.

(** The arguments given to [WorldPackets::Misc::Weather]: the state, and the
    intensity when the caller passes one. *)
Record WeatherPacket : Type := {
  packet_state : WeatherState;
  packet_intensity : option float32
}.

(** Weather::SendWeatherUpdateToPlayer (lines 205-209): the packet handed to
    [player->SendDirectMessage]; the object is not written. *)
Definition SendWeatherUpdateToPlayer (s : Sys) : WeatherPacket :=
  {| packet_state := GetWeatherState s; packet_intensity := Some (cur_intensity s) |}.

(** Weather::SendFineWeatherUpdateToPlayer (lines 211-215). *)
Definition SendFineWeatherUpdateToPlayer (s : Sys) : WeatherPacket :=
  {| packet_state := WEATHER_STATE_FINE; packet_intensity := None |}.

(** *** The life of an object: calls of its public functions, in any order,
    while the world around it moves. *)
Inductive Call : Type :=
| CallUpdate (diff : Z)
| CallSetWeather (type : WeatherType) (intensity : float32) (triggerScripts : bool)
| CallSendWeatherUpdateToPlayer (player : Z)
| CallSendFineWeatherUpdateToPlayer (player : Z)
| WorldMoves (found : bool) (yday : Z) (draws_by_others : nat).

(** Players come and go, the calendar advances, others draw random numbers. *)
Definition with_surroundings (found : bool) (yday : Z) (draws_by_others : nat)
    (s : Sys) : Sys :=
  {| self := self s;
     world := {| urand_tape := urand_tape (world s); norm_tape := norm_tape (world s);
                 rng_pos := (rng_pos (world s) + draws_by_others)%nat;
                 game_yday := yday; zone_has_players := found;
                 events := events (world s) |} |}.

(** The calls in order, with the packets sent to single players (oldest
    first); the owner drops the object at the first tick that answers false. *)
Fixpoint run_calls (calls : list Call) (s : Sys) (sent : list (Z * WeatherPacket))
    : Sys * list (Z * WeatherPacket) :=
  match calls with
  | [] => (s, sent)
  | CallUpdate diff :: rest =>
      match Update diff s with
      | (true, s') => run_calls rest s' sent
      | (false, s') => (s', sent)
      end
  | CallSetWeather type intensity triggerScripts :: rest =>
      run_calls rest (snd (SetWeather type intensity triggerScripts s)) sent
  | CallSendWeatherUpdateToPlayer player :: rest =>
      run_calls rest s (sent ++ [(player, SendWeatherUpdateToPlayer s)])
  | CallSendFineWeatherUpdateToPlayer player :: rest =>
      run_calls rest s (sent ++ [(player, SendFineWeatherUpdateToPlayer s)])
  | WorldMoves found yday n :: rest =>
      run_calls rest (with_surroundings found yday n s) sent
  end.

(** *** Predicates of the properties below *)

(** Neither [>= 1] nor [< 0]: the two tests of lines 223-226 both fail. *)
Definition in_send_range (i : float32) : bool :=
  negb (f32_ge i f_one) && negb (f32_lt i f_zero).

Definition zone_message_in_range (e : Event) : bool :=
  match e with
  | SendZoneMessage _ _ i => in_send_range i
  | _ => true
  end.

Definition packet_in_range (p : Z * WeatherPacket) : bool :=
  match packet_intensity (snd p) with
  | Some i => in_send_range i
  | None => true
  end.

(** Fine weather has intensity 0. *)
Definition fine_is_calm (s : Sys) : Prop :=
  cur_type s = WEATHER_TYPE_FINE -> cur_intensity s = f_zero.

(** The same intensity: the same value, or two values that compare equal. *)
Definition same_intensity (a b : float32) : Prop :=
  a = b \/ f32_eq a b = true.

(** Lines 163-175 on their own: the type picked for the draw [rnd]. *)
Definition picked_type (row : WeatherSeasonChances) (rnd : Z) : WeatherType :=
  let chance1 := rainChance row in
  let chance2 := u32 (chance1 + snowChance row) in
  let chance3 := u32 (chance2 + stormChance row) in
  if rnd <=? chance1 then WEATHER_TYPE_RAIN
  else if rnd <=? chance2 then WEATHER_TYPE_SNOW
  else if rnd <=? chance3 then WEATHER_TYPE_STORM
  else WEATHER_TYPE_FINE.

(** A row as the loader accepts it: percentages whose sum is at most 100. *)
Definition well_formed_row (row : WeatherSeasonChances) : Prop :=
  0 <= rainChance row /\ 0 <= snowChance row /\ 0 <= stormChance row /\
  rainChance row + snowChance row + stormChance row <= 100.

(** The random source replaced by one whose next raw output is [u] and whose
    later ones are all [raw]. *)
Definition with_draws (u raw : Z) (s : Sys) : Sys :=
  {| self := self s;
     world := {| urand_tape := fun n => if Nat.eqb n (rng_pos (world s)) then u else raw;
                 norm_tape := norm_tape (world s);
                 rng_pos := rng_pos (world s);
                 game_yday := game_yday (world s);
                 zone_has_players := zone_has_players (world s);
                 events := events (world s) |} |}.

(** The raw outputs 0, 1, ..., 99. *)
Definition raw_draws : list Z := map Z.of_nat (seq 0 100).

(** How many of the 100 raw outputs lead ReGenerate, after the draw [u], to
    the type [t]. *)
Definition draws_leading_to (t : WeatherType) (u : Z) (s : Sys) : nat :=
  List.length
    (filter (fun raw => WeatherType_eqb (cur_type (snd (ReGenerate (with_draws u raw s)))) t)
       raw_draws).

(** The zone and the chance table an object was constructed with. *)
Definition configuration (s : Sys) : Z * option WeatherData :=
  (m_zone (self s), m_weatherChances (self s)).

(** The season of each day of the year, as line 109 computes it: four
    seasons of 91 days, spring starting on day 77. *)
Definition season_by_day (tm_yday : Z) : Z :=
  if tm_yday <? 77 then 3
  else if tm_yday <? 168 then 0
  else if tm_yday <? 259 then 1
  else if tm_yday <? 350 then 2
  else 3.

(** * Properties *)

(** The constants above are the source literals rounded to nearest. *)
Lemma literals_are_rounded_decimals :
  f32_lit 33333334 100000000 = f_0_33333334 /\
  f32_lit 6666667 10000000 = f_0_6666667 /\
  f32_lit 9999 10000 = f_0_9999 /\
  f32_lit 1 10000 = f_0_0001 /\
  f32_lit 27 100 = f_0_27 /\
  f32_lit 40 100 = f_0_40 /\
  f32_lit 70 100 = f_0_70 /\
  f32_lit 3333 10000 = f_0_3333 /\
  f32_lit 3334 10000 = f_0_3334 /\
  f32_lit 6667 10000 = f_0_6667 /\
  f32_of_Z 1 = f_one.
Proof. vm_compute. repeat split. Qed.

(** They are canonical binary32 numbers, and so are those of the samples. *)
Lemma literals_are_binary32 :
  forallb is_f32
    [f_zero; f_one; f_0_33333334; f_0_6666667; f_0_9999; f_0_0001; f_0_27; f_0_40;
     f_0_70; f_0_3333; f_0_3334; f_0_6667; f_0_5; f_2; f_minus_1; f_0_00005] = true.
Proof. reflexivity. Qed.

(** ** Order facts on binary32 *)

Section FloatOrder.

Lemma SFcompare_antisym (a b : float32) :
  SFcompare b a = option_map CompOpp (SFcompare a b).
Proof.
  destruct a as [sa|sa| |sa ma ea], b as [sb|sb| |sb mb eb]; simpl;
    try reflexivity;
    try (destruct sa; reflexivity); try (destruct sb; reflexivity);
    try (destruct sa, sb; reflexivity).
  destruct sa, sb; simpl; try reflexivity; f_equal;
    rewrite (Z.compare_antisym ea eb);
    change (Pos.compare_cont Eq mb ma) with (Pos.compare mb ma);
    change (Pos.compare_cont Eq ma mb) with (Pos.compare ma mb);
    rewrite (Pos.compare_antisym ma mb);
    destruct (ea ?= eb), (ma ?= mb)%positive; reflexivity.
Qed.

Lemma f32_lt_not_ge (a b : float32) : f32_lt a b = true -> f32_ge a b = false.
Proof.
  unfold f32_lt, f32_ge, SFltb, SFleb. rewrite (SFcompare_antisym a b).
  destruct (SFcompare a b) as [[]|]; simpl; congruence.
Qed.

Lemma f32_ge_not_lt (a b : float32) : f32_ge a b = true -> f32_lt a b = false.
Proof.
  unfold f32_lt, f32_ge, SFltb, SFleb. rewrite (SFcompare_antisym a b).
  destruct (SFcompare a b) as [[]|]; simpl; congruence.
Qed.

Lemma f32_le_not_gt (a b : float32) : f32_le a b = true -> f32_gt a b = false.
Proof. exact (f32_ge_not_lt b a). Qed.

(** Away from NaN every comparison has an outcome, so the order is total. *)
Lemma SFcompare_defined (a b : float32) :
  is_nan a = false -> is_nan b = false -> exists c, SFcompare a b = Some c.
Proof.
  destruct a as [sa|sa| |sa ma ea], b as [sb|sb| |sb mb eb]; simpl;
    try discriminate; intros _ _; eexists; reflexivity.
Qed.

Lemma f32_not_lt_ge (a b : float32) :
  is_nan a = false -> is_nan b = false -> f32_lt a b = false -> f32_ge a b = true.
Proof.
  intros Ha Hb. destruct (SFcompare_defined a b Ha Hb) as [c Hc].
  unfold f32_lt, f32_ge, SFltb, SFleb. rewrite (SFcompare_antisym a b), Hc.
  destruct c; simpl; congruence.
Qed.

Lemma f32_le_not_nan (a b : float32) :
  f32_le a b = true -> is_nan a = false /\ is_nan b = false.
Proof.
  unfold f32_le, SFleb.
  destruct a as [sa|sa| |sa ma ea], b as [sb|sb| |sb mb eb]; simpl;
    try discriminate; auto.
Qed.

Lemma f32_lt_not_nan (a b : float32) :
  f32_lt a b = true -> is_nan a = false /\ is_nan b = false.
Proof.
  unfold f32_lt, SFltb.
  destruct a as [sa|sa| |sa ma ea], b as [sb|sb| |sb mb eb]; simpl;
    try discriminate; auto.
Qed.

Lemma f32_eq_refl (a : float32) : is_nan a = false -> f32_eq a a = true.
Proof.
  unfold f32_eq, SFeqb.
  destruct a as [sa|sa| |sa ma ea]; simpl; try discriminate; intros _;
    try (destruct sa; reflexivity).
  change (Pos.compare_cont Eq ma ma) with (Pos.compare ma ma).
  rewrite Z.compare_refl, Pos.compare_refl. destruct sa; reflexivity.
Qed.

Lemma f32_lt_trans (a b c : float32) :
  f32_lt a b = true -> f32_lt b c = true -> f32_lt a c = true.
Proof.
  unfold f32_lt, SFltb.
  destruct a as [sa|sa| |sa ma ea], b as [sb|sb| |sb mb eb],
           c as [sc|sc| |sc mc ec]; simpl;
    try discriminate; try (destruct sa; discriminate);
    try (destruct sb; discriminate); try (destruct sc; discriminate);
    try (destruct sa, sb; discriminate); try (destruct sb, sc; discriminate);
    try (destruct sa, sc; simpl; congruence);
    try (destruct sa, sb, sc; simpl; congruence).
  change (Pos.compare_cont Eq ma mb) with (Pos.compare ma mb).
  change (Pos.compare_cont Eq mb mc) with (Pos.compare mb mc).
  change (Pos.compare_cont Eq ma mc) with (Pos.compare ma mc).
  destruct sa, sb, sc; simpl; try congruence;
    destruct (Z.compare_spec ea eb), (Z.compare_spec eb ec), (Z.compare_spec ea ec);
    try discriminate; try reflexivity; try lia;
    destruct (Pos.compare_spec ma mb), (Pos.compare_spec mb mc),
             (Pos.compare_spec ma mc); simpl; try discriminate; try reflexivity; lia.
Qed.

Lemma f32_le_lt_trans (a b c : float32) :
  f32_le a b = true -> f32_lt b c = true -> f32_lt a c = true.
Proof.
  unfold f32_le, f32_lt, SFleb, SFltb.
  destruct a as [sa|sa| |sa ma ea], b as [sb|sb| |sb mb eb],
           c as [sc|sc| |sc mc ec]; simpl;
    try discriminate; try (destruct sa; discriminate);
    try (destruct sb; discriminate); try (destruct sc; discriminate);
    try (destruct sa, sb; discriminate); try (destruct sb, sc; discriminate);
    try (destruct sa, sc; simpl; congruence);
    try (destruct sa, sb, sc; simpl; congruence).
  change (Pos.compare_cont Eq ma mb) with (Pos.compare ma mb).
  change (Pos.compare_cont Eq mb mc) with (Pos.compare mb mc).
  change (Pos.compare_cont Eq ma mc) with (Pos.compare ma mc).
  destruct sa, sb, sc; simpl; try congruence;
    destruct (Z.compare_spec ea eb), (Z.compare_spec eb ec), (Z.compare_spec ea ec);
    try discriminate; try reflexivity; try lia;
    destruct (Pos.compare_spec ma mb), (Pos.compare_spec mb mc),
             (Pos.compare_spec ma mc); simpl; try discriminate; try reflexivity; lia.
Qed.

End FloatOrder.

(** ** The classifier *)

Lemma bands_are_ordered :
  f32_lt f_0_27 f_0_40 = true /\ f32_lt f_0_40 f_0_70 = true /\
  f32_lt f_0_27 f_0_70 = true.
Proof. vm_compute. auto. Qed.

Lemma above_threshold_not_below (lo hi i : float32) :
  f32_lt lo hi = true -> f32_ge i hi = true -> f32_lt i lo = false.
Proof.
  intros Hlh Hge. destruct (f32_lt i lo) eqn:Hlt; [|reflexivity].
  pose proof (f32_lt_trans i lo hi Hlt Hlh) as H.
  apply f32_lt_not_ge in H. congruence.
Qed.

(** C4, as the code has it.  [Classify] (Weather::GetWeatherState) is the
    reference table: below 0.27 every type gives Fine; from 0.27 on, the
    type's light state below 0.40, its medium state from 0.40 and below
    0.70, its heavy state from 0.70 on, where BlackRain, Thunders, Fine and
    an unrecognized type have one state for all bands; an unrecognized type
    gives Fine at any intensity; so from 0.27 on the result is Fine only for
    type Fine or an unrecognized type. *)
Theorem Classify_matches_reference_table (t : WeatherType) (i : float32) :
  (f32_lt i f_0_27 = true -> Classify t i = WEATHER_STATE_FINE) /\
  (f32_ge i f_0_27 = true -> f32_lt i f_0_40 = true ->
     Classify t i = reference_state t Light) /\
  (f32_ge i f_0_40 = true -> f32_lt i f_0_70 = true ->
     Classify t i = reference_state t Medium) /\
  (f32_ge i f_0_70 = true -> Classify t i = reference_state t Heavy) /\
  (unrecognized t = true -> Classify t i = WEATHER_STATE_FINE) /\
  (f32_ge i f_0_27 = true -> Classify t i = WEATHER_STATE_FINE ->
     t = WEATHER_TYPE_FINE \/ unrecognized t = true).
Proof.
  destruct bands_are_ordered as (H1 & H2 & H3).
  unfold Classify. split; [|split; [|split; [|split; [|split]]]].
  - intros ->. reflexivity.
  - intros Hge Hlt. rewrite (f32_ge_not_lt _ _ Hge), Hlt. destruct t; reflexivity.
  - intros Hge Hlt.
    rewrite (above_threshold_not_below _ _ _ H1 Hge), (f32_ge_not_lt _ _ Hge), Hlt.
    destruct t; reflexivity.
  - intros Hge.
    rewrite (above_threshold_not_below _ _ _ H3 Hge),
            (above_threshold_not_below _ _ _ H2 Hge), (f32_ge_not_lt _ _ Hge).
    destruct t; reflexivity.
  - intros Hu. destruct t; try discriminate Hu.
    destruct (f32_lt i f_0_27); reflexivity.
  - intros Hge. rewrite (f32_ge_not_lt _ _ Hge).
    destruct t; try (left; reflexivity); try (right; reflexivity);
      destruct (f32_lt i f_0_40), (f32_lt i f_0_70); discriminate.
Qed.

Lemma Classify_matches_reference_table_witness :
  Classify WEATHER_TYPE_SNOW f_0_0001 = WEATHER_STATE_FINE /\
  Classify WEATHER_TYPE_RAIN f_0_27 = WEATHER_STATE_LIGHT_RAIN /\
  Classify WEATHER_TYPE_STORM f_0_40 = WEATHER_STATE_MEDIUM_SANDSTORM /\
  Classify WEATHER_TYPE_SNOW f_0_9999 = WEATHER_STATE_HEAVY_SNOW /\
  Classify (WeatherType_other 5) f_0_9999 = WEATHER_STATE_FINE /\
  (Classify WEATHER_TYPE_FINE f_0_70 = WEATHER_STATE_FINE ->
   WEATHER_TYPE_FINE = WEATHER_TYPE_FINE \/ unrecognized WEATHER_TYPE_FINE = true).
Proof.
  split; [|split; [|split; [|split; [|split]]]].
  - destruct (Classify_matches_reference_table WEATHER_TYPE_SNOW f_0_0001) as (H & _).
    apply H. reflexivity.
  - destruct (Classify_matches_reference_table WEATHER_TYPE_RAIN f_0_27)
      as (_ & H & _).
    apply H; reflexivity.
  - destruct (Classify_matches_reference_table WEATHER_TYPE_STORM f_0_40)
      as (_ & _ & H & _).
    apply H; reflexivity.
  - destruct (Classify_matches_reference_table WEATHER_TYPE_SNOW f_0_9999)
      as (_ & _ & _ & H & _).
    apply H. reflexivity.
  - destruct (Classify_matches_reference_table (WeatherType_other 5) f_0_9999)
      as (_ & _ & _ & _ & H & _).
    apply H. reflexivity.
  - destruct (Classify_matches_reference_table WEATHER_TYPE_FINE f_0_70)
      as (_ & _ & _ & _ & _ & H).
    apply H. reflexivity.
Defined.

(** C4 as stated fails in its last part.  The type of value 5 has no
    enumerator and is not Fine; the [default:] label classifies it Fine at
    intensity 0.5, which is not below 0.27. *)
Lemma unrecognized_type_is_fine_above_threshold :
  f32_ge f_0_5 f_0_27 = true /\
  Classify (WeatherType_other 5) f_0_5 = WEATHER_STATE_FINE /\
  WeatherType_other 5 <> WEATHER_TYPE_FINE.
Proof. split; [reflexivity|]. split; [reflexivity|discriminate]. Qed.

(** ** Traces *)

Lemma skipn_own_length {A} (l r : list A) : skipn (List.length l) (l ++ r) = r.
Proof. induction l as [|x l IH]; simpl; auto. Qed.

Lemma events_since_app (s s' : Sys) (new : list Event) :
  events (world s') = events (world s) ++ new -> events_since s s' = new.
Proof. unfold events_since. intros ->. apply skipn_own_length. Qed.

Lemma with_intensity_same (s : Sys) : with_intensity (cur_intensity s) s = s.
Proof. destruct s as [[z tm t i c] w]. reflexivity. Qed.

(** ** Weather::UpdateWeather *)

Lemma clamp_for_send_eq (s : Sys) :
  clamp_for_send s = (Next tt, with_intensity (clamp_intensity (cur_intensity s)) s).
Proof.
  unfold clamp_for_send, clamp_intensity, bind, read, when, modify, pure.
  destruct (f32_ge (cur_intensity s) f_one); [reflexivity|].
  destruct (f32_lt (cur_intensity s) f_zero); [reflexivity|].
  now rewrite with_intensity_same.
Qed.

Lemma with_events_events (l : list Event) (s : Sys) :
  events (world (with_events l s)) = events (world s) ++ l.
Proof.
  revert s. induction l as [|e l IH]; intros s; simpl.
  - now rewrite app_nil_r.
  - unfold with_events in *. simpl. rewrite IH. simpl. now rewrite <- app_assoc.
Qed.

Lemma with_events_frame (l : list Event) (s : Sys) :
  self (with_events l s) = self s /\
  rng_pos (world (with_events l s)) = rng_pos (world s) /\
  zone_has_players (world (with_events l s)) = zone_has_players (world s) /\
  urand_tape (world (with_events l s)) = urand_tape (world s) /\
  norm_tape (world (with_events l s)) = norm_tape (world s) /\
  game_yday (world (with_events l s)) = game_yday (world s).
Proof.
  revert s. induction l as [|e l IH]; intros s; simpl.
  - repeat split.
  - unfold with_events in *. simpl. destruct (IH (with_event e s)) as (H1&H2&H3&H4&H5&H6).
    rewrite H1, H2, H3, H4, H5, H6. repeat split.
Qed.

Lemma UpdateWeather_eq (triggerScripts : bool) (s : Sys) :
  let c := clamp_intensity (cur_intensity s) in
  UpdateWeather triggerScripts s =
    (zone_has_players (world s),
     with_events
       (UpdateWeather_events triggerScripts (zone_has_players (world s)) (cur_zone s)
          (Classify (cur_type s) c) c)
       (with_intensity c s)).
Proof.
  intros c. unfold UpdateWeather, run, UpdateWeather_body.
  unfold bind at 1. rewrite clamp_for_send_eq. fold c.
  unfold UpdateWeather_events, with_events, bind, read, when, emit, modify, pure, return_.
  simpl. destruct (zone_has_players (world s)); simpl; [|reflexivity].
  destruct triggerScripts; reflexivity.
Qed.

Lemma UpdateWeather_spec (triggerScripts : bool) (s : Sys) :
  let c := clamp_intensity (cur_intensity s) in
  let r := UpdateWeather triggerScripts s in
  fst r = zone_has_players (world s) /\
  self (snd r) = self (with_intensity c s) /\
  events (world (snd r)) =
    events (world s) ++
    UpdateWeather_events triggerScripts (zone_has_players (world s)) (cur_zone s)
      (Classify (cur_type s) c) c.
Proof.
  intros c r. subst r. rewrite UpdateWeather_eq. fold c.
  cbv beta iota delta [fst snd].
  split; [reflexivity|]. split.
  - apply with_events_frame.
  - now rewrite with_events_events.
Qed.

(** The clamp never leaves a value [>= 1] or [< 0]. *)
Lemma clamp_intensity_range (i : float32) :
  f32_ge (clamp_intensity i) f_one = false /\
  f32_lt (clamp_intensity i) f_zero = false.
Proof.
  unfold clamp_intensity.
  destruct (f32_ge i f_one) eqn:H1; [split; reflexivity|].
  destruct (f32_lt i f_zero) eqn:H0; [split; reflexivity|].
  split; assumption.
Qed.

Lemma clamp_intensity_not_nan (i : float32) :
  is_nan i = false -> is_nan (clamp_intensity i) = false.
Proof.
  unfold clamp_intensity. intros H.
  destruct (f32_ge i f_one); [reflexivity|].
  destruct (f32_lt i f_zero); [reflexivity|assumption].
Qed.

(** C1, as the code has it.  Every [UpdateWeather] sends exactly one zone
    message, and the intensity it carries is the stored one after the two
    tests of lines 223-226: a stored value [>= 1] is sent as 0.9999, a stored
    value [< 0] as 0.0001, any other value as it is.  The value sent is
    therefore never [>= 1] (in particular never 1.0) and never [< 0], and for
    a stored value that is not NaN it lies in [0, 1). *)
Theorem broadcast_intensity_clamped (triggerScripts : bool) (s : Sys) :
  let c := clamp_intensity (cur_intensity s) in
  let s' := snd (UpdateWeather triggerScripts s) in
  broadcasts (events_since s s') =
    [SendZoneMessage (cur_zone s) (Classify (cur_type s) c) c] /\
  cur_intensity s' = c /\
  (f32_ge (cur_intensity s) f_one = true -> c = f_0_9999) /\
  (f32_lt (cur_intensity s) f_zero = true -> c = f_0_0001) /\
  (f32_ge (cur_intensity s) f_one = false ->
   f32_lt (cur_intensity s) f_zero = false -> c = cur_intensity s) /\
  f32_ge c f_one = false /\ f32_lt c f_zero = false /\ c <> f_one /\
  (is_nan (cur_intensity s) = false ->
   f32_le f_zero c = true /\ f32_lt c f_one = true).
Proof.
  intros c s'.
  pose proof (UpdateWeather_spec triggerScripts s) as H. cbv zeta in H.
  destruct H as (_ & Hself & Hev).
  fold c in Hself, Hev. fold s' in Hself, Hev.
  destruct (clamp_intensity_range (cur_intensity s)) as [Hhi Hlo]. fold c in Hhi, Hlo.
  split; [|split; [|split; [|split; [|split; [|split; [|split; [|split]]]]]]].
  - rewrite (events_since_app _ _ _ Hev). unfold UpdateWeather_events, broadcasts.
    destruct (zone_has_players (world s)), triggerScripts; reflexivity.
  - unfold cur_intensity. rewrite Hself. reflexivity.
  - intros H. subst c. unfold clamp_intensity. now rewrite H.
  - intros H. subst c. unfold clamp_intensity.
    destruct (f32_ge (cur_intensity s) f_one) eqn:H1.
    + apply f32_ge_not_lt in H1.
      pose proof (f32_lt_trans _ _ _ H (eq_refl : f32_lt f_zero f_one = true)).
      congruence.
    + now rewrite H.
  - intros H1 H0. subst c. unfold clamp_intensity. now rewrite H1, H0.
  - exact Hhi.
  - exact Hlo.
  - intros E. rewrite E in Hhi. discriminate Hhi.
  - intros Hn. apply clamp_intensity_not_nan in Hn. fold c in Hn. split.
    + apply (f32_not_lt_ge c f_zero); auto.
    + destruct (f32_lt c f_one) eqn:E; [reflexivity|].
      apply (f32_not_lt_ge c f_one) in E; auto. congruence.
Qed.

(** ** Statements that keep a property *)

Section Preserves.
Context {R : Type} (I : Sys -> Prop).

Lemma preserves_pure {A} (a : A) : preserves I (pure a : Stmt R A).
Proof. intros s Hs. exact Hs. Qed.

Lemma preserves_return {A} (r : R) : preserves I (return_ r : Stmt R A).
Proof. intros s Hs. exact Hs. Qed.

Lemma preserves_read {A} (f : Sys -> A) : preserves I (read f : Stmt R A).
Proof. intros s Hs. exact Hs. Qed.

Lemma preserves_modify (f : Sys -> Sys) :
  (forall s, I s -> I (f s)) -> preserves I (modify f : Stmt R unit).
Proof. intros Hf s Hs. simpl. auto. Qed.

Lemma preserves_bind {A B} (m : Stmt R A) (k : A -> Stmt R B) :
  preserves I m -> (forall a, preserves I (k a)) -> preserves I (bind m k).
Proof.
  intros Hm Hk s Hs. unfold bind. specialize (Hm s Hs).
  destruct (m s) as [[r|a] s']; simpl in *.
  - exact Hm.
  - apply Hk, Hm.
Qed.

Lemma preserves_when (c : bool) (body : Stmt R unit) :
  preserves I body -> preserves I (when c body).
Proof. intros Hb. unfold when. destruct c; [exact Hb|apply preserves_pure]. Qed.

Lemma preserves_if {A} (c : bool) (m1 m2 : Stmt R A) :
  preserves I m1 -> preserves I m2 -> preserves I (if c then m1 else m2).
Proof. destruct c; auto. Qed.

Lemma preserves_run (body : Stmt R R) :
  preserves I body -> forall s, I s -> I (snd (run body s)).
Proof.
  intros Hb s Hs. unfold run. specialize (Hb s Hs).
  destruct (body s) as [[r|r] s']; exact Hb.
Qed.

Lemma preserves_call {A} (f : Sys -> A * Sys) :
  (forall s, I s -> I (snd (f s))) -> preserves I (call f : Stmt R A).
Proof.
  intros Hf s Hs. unfold call. specialize (Hf s Hs).
  destruct (f s) as [a s']. exact Hf.
Qed.
End Preserves.

(** ** Weather::ReGenerate keeps what its writes keep *)

Section ReGenerateKeeps.
(** What the property must withstand: the writes ReGenerate performs. *)
Variable I : Sys -> Prop.
Hypothesis stable_type : forall t s, seasonal t = true -> I s -> I (with_type t s).
Hypothesis stable_intensity : forall i s, I s -> I (with_intensity i s).
Hypothesis stable_rng : forall s, I s -> I (with_rng_next s).
Hypothesis stable_log : forall n z s, I s -> I (with_event (LogGenerating n z) s).

Lemma urand_keeps (lo hi : Z) : preserves I (urand lo hi : Stmt bool Z).
Proof. intros s Hs. simpl. apply stable_rng, Hs. Qed.

Lemma rand_norm_keeps : preserves I (rand_norm_f : Stmt bool float32).
Proof. intros s Hs. simpl. apply stable_rng, Hs. Qed.

Local Ltac seasonal_pick :=
  repeat match goal with |- context [if ?c then _ else _] => destruct c end;
  reflexivity.

Local Ltac keeps :=
  repeat first
    [ apply urand_keeps
    | apply rand_norm_keeps
    | apply preserves_read
    | apply preserves_pure
    | apply preserves_return
    | apply preserves_modify; intros ? ?;
      first [ apply stable_intensity; assumption
            | apply stable_type; [seasonal_pick|assumption]
            | apply stable_rng; assumption
            | apply stable_log; assumption ]
    | apply preserves_when
    | apply preserves_if
    | apply preserves_bind; [|intros ?] ].

Lemma get_fair_keeps (u : Z) : preserves I (get_fair u).
Proof. unfold get_fair. keeps. Qed.

Lemma get_better_keeps (u : Z) : preserves I (get_better u).
Proof. unfold get_better. keeps. Qed.

Lemma get_worse_keeps (u : Z) : preserves I (get_worse u).
Proof. unfold get_worse. keeps. Qed.

Lemma radical_change_keeps : preserves I radical_change.
Proof. unfold radical_change, clear_up. keeps. Qed.

Lemma pick_new_weather_keeps wd season u old_type old_intensity :
  preserves I (pick_new_weather wd season u old_type old_intensity).
Proof. unfold pick_new_weather. cbv zeta. keeps. Qed.

Lemma transitions_keeps wd u s0 : preserves I (transitions wd u s0).
Proof.
  unfold transitions.
  apply preserves_bind; [apply get_fair_keeps|intros _].
  apply preserves_bind; [apply get_better_keeps|intros _].
  apply preserves_bind; [apply get_worse_keeps|intros _].
  apply preserves_bind; [apply radical_change_keeps|intros _].
  apply pick_new_weather_keeps.
Qed.

Lemma ReGenerate_body_keeps : preserves I ReGenerate_body.
Proof.
  unfold ReGenerate_body.
  apply preserves_bind; [apply preserves_read|intros [wd|]].
  - apply preserves_bind; [apply urand_keeps|intros u].
    apply preserves_bind; [keeps|intros _].
    apply preserves_bind; [keeps|intros old_type].
    apply preserves_bind; [keeps|intros old_intensity].
    apply preserves_bind; [keeps|intros tm_yday]. cbv zeta.
    apply preserves_bind; [unfold log_generating, emit; keeps|intros _].
    apply preserves_bind; [apply get_fair_keeps|intros _].
    apply preserves_bind; [apply get_better_keeps|intros _].
    apply preserves_bind; [apply get_worse_keeps|intros _].
    apply preserves_bind; [apply radical_change_keeps|intros _].
    apply pick_new_weather_keeps.
  - keeps.
Qed.

(** Whatever withstands the four writes holds after [ReGenerate]. *)
Lemma ReGenerate_keeps (s : Sys) : I s -> I (snd (ReGenerate s)).
Proof. apply preserves_run, ReGenerate_body_keeps. Qed.
End ReGenerateKeeps.

(** ** Weather::ReGenerate, branch by branch *)

Lemma ReGenerate_none (s : Sys) :
  m_weatherChances (self s) = None ->
  ReGenerate s = (false, with_intensity f_zero (with_type WEATHER_TYPE_FINE s)).
Proof.
  intros H. unfold ReGenerate, run, ReGenerate_body.
  unfold bind at 1. unfold read at 1. rewrite H. reflexivity.
Qed.

Lemma ReGenerate_some (s : Sys) (wd : WeatherData) :
  m_weatherChances (self s) = Some wd ->
  ReGenerate s =
    if urand_value 0 99 (world s) <? 30 then (false, with_rng_next s)
    else run (transitions wd (urand_value 0 99 (world s)) s) (after_draw s).
Proof.
  intros H. unfold ReGenerate, run, ReGenerate_body.
  unfold bind at 1. unfold read at 1. rewrite H.
  unfold bind at 1. unfold urand at 1.
  unfold bind at 1. unfold when at 1.
  destruct (urand_value 0 99 (world s) <? 30); [reflexivity|].
  reflexivity.
Qed.

(** C7. With a chance table configured and a draw [u] in [0,29],
    [ReGenerate] returns false and leaves the object as it was: type,
    intensity and every other field, and nothing is logged or sent. *)
Theorem ReGenerate_below_30_is_no_change (s : Sys) (wd : WeatherData) :
  m_weatherChances (self s) = Some wd ->
  0 <= urand_value 0 99 (world s) <= 29 ->
  fst (ReGenerate s) = false /\
  cur_type (snd (ReGenerate s)) = cur_type s /\
  cur_intensity (snd (ReGenerate s)) = cur_intensity s /\
  self (snd (ReGenerate s)) = self s /\
  events (world (snd (ReGenerate s))) = events (world s).
Proof.
  intros Hwd Hu. rewrite (ReGenerate_some s wd Hwd).
  replace (urand_value 0 99 (world s) <? 30) with true
    by (symmetry; apply Z.ltb_lt; lia).
  repeat split.
Qed.



Lemma get_fair_eq (u : Z) (s : Sys) :
  get_fair u s =
    (Next tt, if (u <? 60) && f32_lt (cur_intensity s) f_0_33333334
              then cleared s else s).
Proof.
  unfold get_fair, bind, read, when.
  destruct ((u <? 60) && f32_lt (cur_intensity s) f_0_33333334); reflexivity.
Qed.

Lemma get_better_eq (u : Z) (s : Sys) :
  get_better u s =
    if (u <? 60) && not_fine (cur_type s)
    then (Returned true, with_intensity (f32_sub (cur_intensity s) f_0_33333334) s)
    else (Next tt, s).
Proof.
  unfold get_better, bind, read, when.
  destruct ((u <? 60) && not_fine (cur_type s)); reflexivity.
Qed.

Lemma get_worse_eq (u : Z) (s : Sys) :
  get_worse u s =
    if (u <? 90) && not_fine (cur_type s)
    then (Returned true, with_intensity (f32_add (cur_intensity s) f_0_33333334) s)
    else (Next tt, s).
Proof.
  unfold get_worse, bind, read, when.
  destruct ((u <? 90) && not_fine (cur_type s)); reflexivity.
Qed.

Lemma radical_change_eq (s : Sys) :
  radical_change s =
    if not_fine (cur_type s) then
      if f32_lt (cur_intensity s) f_0_33333334 then
        (Returned true, with_intensity f_0_9999 s)
      else if f32_gt (cur_intensity s) f_0_6666667 then
        if urand_value 0 99 (world s) <? 50 then
          (Returned true,
           with_intensity (f32_sub (cur_intensity s) f_0_6666667) (with_rng_next s))
        else (Next tt, cleared (with_rng_next s))
      else (Next tt, cleared s)
    else (Next tt, s).
Proof.
  unfold radical_change, clear_up, bind, read, when, urand, modify, return_, pure.
  destruct (not_fine (cur_type s)); [|reflexivity].
  destruct (f32_lt (cur_intensity s) f_0_33333334); [reflexivity|].
  destruct (f32_gt (cur_intensity s) f_0_6666667); [|reflexivity].
  destruct (urand_value 0 99 (world s) <? 50); reflexivity.
Qed.

(** The four tests in sequence, up to the seasonal pick. *)
Lemma transitions_eq (wd : WeatherData) (u : Z) (s0 s : Sys) :
  transitions wd u s0 s =
    match get_fair u s with
    | (Returned r, s1) => (Returned r, s1)
    | (Next _, s1) =>
        match get_better u s1 with
        | (Returned r, s2) => (Returned r, s2)
        | (Next _, s2) =>
            match get_worse u s2 with
            | (Returned r, s3) => (Returned r, s3)
            | (Next _, s3) =>
                match radical_change s3 with
                | (Returned r, s4) => (Returned r, s4)
                | (Next _, s4) =>
                    pick_new_weather wd (season_of_yday (game_yday (world s0))) u
                      (cur_type s0) (cur_intensity s0) s4
                end
            end
        end
    end.
Proof. reflexivity. Qed.

Lemma cleared_is_fine (s : Sys) : not_fine (cur_type (cleared s)) = false.
Proof. reflexivity. Qed.

Lemma not_fine_true (t : WeatherType) : t <> WEATHER_TYPE_FINE -> not_fine t = true.
Proof. destruct t; try reflexivity. congruence. Qed.

(** C3, as the code has it.  With a chance table configured, a draw [u] in
    [30,59] and an intensity below 1/3, "Get fair" collapses the state to
    (Fine, 0) and does not return; the "Get better" test that follows is
    evaluated on the now-Fine state and fails, so no decrement is applied;
    "Get worse" and the radical change are skipped as well, and ReGenerate
    goes on with the seasonal pick from the cleared state. *)
Theorem get_fair_collapses_and_falls_through (s : Sys) (wd : WeatherData) :
  m_weatherChances (self s) = Some wd ->
  30 <= urand_value 0 99 (world s) <= 59 ->
  f32_lt (cur_intensity s) f_0_33333334 = true ->
  let u := urand_value 0 99 (world s) in
  let s1 := after_draw s in
  get_fair u s1 = (Next tt, cleared s1) /\
  cur_type (cleared s1) = WEATHER_TYPE_FINE /\
  cur_intensity (cleared s1) = f_zero /\
  get_better u (cleared s1) = (Next tt, cleared s1) /\
  get_worse u (cleared s1) = (Next tt, cleared s1) /\
  radical_change (cleared s1) = (Next tt, cleared s1) /\
  ReGenerate s =
    run (pick_new_weather wd (season_of_yday (game_yday (world s))) u
           (cur_type s) (cur_intensity s))
        (cleared s1).
Proof.
  intros Hwd Hu Hi u s1.
  assert (Hu60 : (u <? 60) = true) by (apply Z.ltb_lt; subst u; lia).
  assert (Hu30 : (u <? 30) = false) by (apply Z.ltb_ge; subst u; lia).
  assert (Hfair : get_fair u s1 = (Next tt, cleared s1)).
  { rewrite get_fair_eq. replace (cur_intensity s1) with (cur_intensity s) by reflexivity.
    now rewrite Hu60, Hi. }
  assert (Hbetter : get_better u (cleared s1) = (Next tt, cleared s1)).
  { rewrite get_better_eq, cleared_is_fine, andb_false_r. reflexivity. }
  assert (Hworse : get_worse u (cleared s1) = (Next tt, cleared s1)).
  { rewrite get_worse_eq, cleared_is_fine, andb_false_r. reflexivity. }
  assert (Hrad : radical_change (cleared s1) = (Next tt, cleared s1)).
  { rewrite radical_change_eq, cleared_is_fine. reflexivity. }
  repeat split; try assumption.
  rewrite (ReGenerate_some s wd Hwd). fold u. rewrite Hu30. fold s1.
  unfold run. rewrite transitions_eq, Hfair, Hbetter, Hworse, Hrad. reflexivity.
Qed.

(** C5. The radical change ([u >= 90], type not Fine).  The three tests
    before it leave the state alone.  Below 1/3 the intensity becomes 0.9999
    and true is returned, the type unchanged; above 2/3, a second draw below
    50 takes 2/3 off the intensity and returns true, the type unchanged, and
    any other second draw clears the state to (Fine, 0) without returning,
    so that the seasonal pick follows; between 1/3 and 2/3 the state is
    cleared to (Fine, 0) without returning and the seasonal pick follows. *)
Theorem radical_change_branches (s : Sys) (wd : WeatherData) :
  m_weatherChances (self s) = Some wd ->
  90 <= urand_value 0 99 (world s) ->
  cur_type s <> WEATHER_TYPE_FINE ->
  let u := urand_value 0 99 (world s) in
  let i := cur_intensity s in
  let s1 := after_draw s in
  let rnd := urand_value 0 99 (world s1) in
  let pick := pick_new_weather wd (season_of_yday (game_yday (world s))) u
                (cur_type s) i in
  (get_fair u s1 = (Next tt, s1) /\
   get_better u s1 = (Next tt, s1) /\
   get_worse u s1 = (Next tt, s1)) /\
  (f32_lt i f_0_33333334 = true ->
     radical_change s1 = (Returned true, with_intensity f_0_9999 s1) /\
     ReGenerate s = (true, with_intensity f_0_9999 s1)) /\
  (f32_gt i f_0_6666667 = true -> rnd < 50 ->
     radical_change s1 =
       (Returned true, with_intensity (f32_sub i f_0_6666667) (with_rng_next s1)) /\
     ReGenerate s = (true, with_intensity (f32_sub i f_0_6666667) (with_rng_next s1))) /\
  (f32_gt i f_0_6666667 = true -> 50 <= rnd ->
     radical_change s1 = (Next tt, cleared (with_rng_next s1)) /\
     cur_type (cleared (with_rng_next s1)) = WEATHER_TYPE_FINE /\
     cur_intensity (cleared (with_rng_next s1)) = f_zero /\
     ReGenerate s = run pick (cleared (with_rng_next s1))) /\
  (f32_ge i f_0_33333334 = true -> f32_le i f_0_6666667 = true ->
     radical_change s1 = (Next tt, cleared s1) /\
     cur_type (cleared s1) = WEATHER_TYPE_FINE /\
     cur_intensity (cleared s1) = f_zero /\
     ReGenerate s = run pick (cleared s1)).
Proof.
  intros Hwd Hu Ht u i s1 rnd pick.
  assert (Hu30 : (u <? 30) = false) by (apply Z.ltb_ge; subst u; lia).
  assert (Hu60 : (u <? 60) = false) by (apply Z.ltb_ge; subst u; lia).
  assert (Hu90 : (u <? 90) = false) by (apply Z.ltb_ge; subst u; lia).
  assert (Hnf : not_fine (cur_type s1) = true) by (apply not_fine_true, Ht).
  assert (Hi1 : cur_intensity s1 = i) by reflexivity.
  assert (Hfair : get_fair u s1 = (Next tt, s1))
    by (rewrite get_fair_eq, Hu60; reflexivity).
  assert (Hbetter : get_better u s1 = (Next tt, s1))
    by (rewrite get_better_eq, Hu60; reflexivity).
  assert (Hworse : get_worse u s1 = (Next tt, s1))
    by (rewrite get_worse_eq, Hu90; reflexivity).
  assert (Hstart : ReGenerate s =
            match radical_change s1 with
            | (Returned r, s4) => (r, s4)
            | (Next _, s4) => run pick s4
            end).
  { rewrite (ReGenerate_some s wd Hwd). fold u. rewrite Hu30. fold s1.
    unfold run at 1. rewrite transitions_eq, Hfair, Hbetter, Hworse.
    destruct (radical_change s1) as [[r|[]] s4]; reflexivity. }
  assert (Habove : f32_gt i f_0_6666667 = true -> f32_lt i f_0_33333334 = false).
  { intros Hgt. apply (above_threshold_not_below f_0_33333334 f_0_6666667 i eq_refl).
    unfold f32_ge, f32_gt, SFleb, SFltb in *.
    destruct (SFcompare f_0_6666667 i) as [[]|]; congruence. }
  rewrite Hstart, radical_change_eq, Hnf, Hi1. fold rnd.
  split; [auto|]. split; [|split; [|split]].
  - intros Hlt. rewrite Hlt. split; reflexivity.
  - intros Hgt Hrnd. rewrite (Habove Hgt), Hgt.
    replace (rnd <? 50) with true by (symmetry; apply Z.ltb_lt; lia).
    split; reflexivity.
  - intros Hgt Hrnd. rewrite (Habove Hgt), Hgt.
    replace (rnd <? 50) with false by (symmetry; apply Z.ltb_ge; lia).
    repeat split.
  - intros Hge Hle.
    rewrite (f32_ge_not_lt _ _ Hge), (f32_le_not_gt _ _ Hle). repeat split.
Qed.

(** ** What ReGenerate leaves alone *)

Lemma ReGenerate_frame (s : Sys) : same_surroundings s (snd (ReGenerate s)).
Proof.
  apply (ReGenerate_keeps (same_surroundings s));
    try (unfold same_surroundings; intros; simpl; assumption).
  unfold same_surroundings. repeat split.
Qed.

Lemma ReGenerate_events (s : Sys) :
  events (world (snd (ReGenerate s))) = events (world s) \/
  events (world (snd (ReGenerate s))) =
    events (world s) ++
    [LogGenerating (seasonName (season_of_yday (game_yday (world s)))) (cur_zone s)].
Proof.
  destruct (m_weatherChances (self s)) as [wd|] eqn:Hwd.
  - rewrite (ReGenerate_some s wd Hwd).
    destruct (urand_value 0 99 (world s) <? 30); [left; reflexivity|right].
    apply (preserves_run
             (fun s' => events (world s') = events (world (after_draw s)))
             (transitions wd (urand_value 0 99 (world s)) s)); [|reflexivity].
    apply transitions_keeps; intros; simpl; assumption.
  - rewrite (ReGenerate_none s Hwd). left. reflexivity.
Qed.

(** ** Weather::Update *)

Lemma Update_eq (diff : Z) (s : Sys) :
  Update diff s =
    let s1 := tick_timer diff s in
    if IntervalTimer_Passed (cur_timer s1) then
      let r := ReGenerate (with_timer (IntervalTimer_Reset (cur_timer s1)) s1) in
      if fst r then
        let r' := UpdateWeather_default (snd r) in
        if fst r' then (true, notify_update diff (snd r')) else (false, snd r')
      else (true, notify_update diff (snd r))
    else (true, notify_update diff s1).
Proof.
  cbv zeta. unfold Update, run, Update_body.
  unfold bind at 1. unfold read at 1.
  unfold bind at 1.
  assert (E : (if 0 <=? timer_current (cur_timer s)
               then modify (with_timer (IntervalTimer_Update diff (cur_timer s)))
               else modify (with_timer (IntervalTimer_SetCurrent 0 (cur_timer s)))) s
              = (@Next bool unit tt, tick_timer diff s)).
  { unfold tick_timer, modify. destruct (0 <=? timer_current (cur_timer s)); reflexivity. }
  rewrite E. clear E.
  unfold bind at 1. unfold read at 1.
  unfold bind at 1. unfold when at 1.
  destruct (IntervalTimer_Passed (cur_timer (tick_timer diff s))); [|reflexivity].
  unfold bind at 1. unfold modify at 1.
  unfold bind at 1. unfold call at 1.
  destruct (ReGenerate _) as [changed s3]. simpl fst. simpl snd.
  unfold when at 1. destruct changed; [|reflexivity].
  unfold bind at 1. unfold call at 1.
  destruct (UpdateWeather_default s3) as [updated s4]. simpl fst. simpl snd.
  destruct updated; reflexivity.
Qed.

(** The value and the trace of one tick, case by case. *)
Lemma Update_trace (diff : Z) (s : Sys) :
  let s3 := snd (regenerated diff s) in
  let c := clamp_intensity (cur_intensity s3) in
  let sends := timer_fires diff s && fst (regenerated diff s) in
  let found := zone_has_players (world s) in
  exists logs,
    (logs = [] \/ exists n z, logs = [LogGenerating n z]) /\
    (timer_fires diff s = false -> logs = []) /\
    fst (Update diff s) = negb (sends && negb found) /\
    events (world (snd (Update diff s))) =
      events (world s) ++ logs ++
      (if sends
       then UpdateWeather_events true found (cur_zone s) (Classify (cur_type s3) c) c
       else []) ++
      (if fst (Update diff s) then [OnWeatherUpdate diff; FireOnWeatherUpdate] else []).
Proof.
  cbv zeta. rewrite Update_eq. cbv zeta. fold (timer_fires diff s).
  fold (regenerated diff s).
  destruct (timer_fires diff s) eqn:Hfire.
  - pose proof (ReGenerate_events
                  (with_timer (IntervalTimer_Reset (cur_timer (tick_timer diff s)))
                     (tick_timer diff s))) as Hev.
    pose proof (ReGenerate_frame
                  (with_timer (IntervalTimer_Reset (cur_timer (tick_timer diff s)))
                     (tick_timer diff s))) as (Hz & _ & _ & _ & _ & _ & Hp).
    fold (regenerated diff s) in Hev, Hz, Hp. simpl in Hev, Hz, Hp.
    set (s3 := snd (regenerated diff s)) in *.
    assert (Hlogs : exists logs,
               (logs = [] \/ exists n z, logs = [LogGenerating n z]) /\
               events (world s3) = events (world s) ++ logs).
    { destruct Hev as [Hev|Hev]; rewrite Hev.
      - exists []. split; [now left|now rewrite app_nil_r].
      - eexists. split; [right; eauto|reflexivity]. }
    destruct Hlogs as (logs & Hshape & Hlogs). exists logs.
    split; [exact Hshape|]. split; [discriminate|].
    destruct (fst (regenerated diff s)) eqn:Hch; simpl andb; cbv iota.
    + pose proof (UpdateWeather_spec true s3) as H. cbv zeta in H.
      destruct H as (Hfst & _ & Hsent).
      fold UpdateWeather_default in Hfst, Hsent.
      unfold cur_zone in *. rewrite Hz, Hp in *. rewrite Hfst.
      destruct (zone_has_players (world s)); simpl fst; simpl snd; simpl negb; cbv iota.
      * split; [reflexivity|]. unfold notify_update.
        rewrite with_events_events, Hsent, Hlogs, <- !app_assoc. reflexivity.
      * split; [reflexivity|]. rewrite Hsent, Hlogs, <- !app_assoc, app_nil_r.
        reflexivity.
    + simpl. split; [reflexivity|]. rewrite Hlogs, <- !app_assoc. reflexivity.
  - exists []. split; [now left|]. split; [reflexivity|].
    simpl. split; [reflexivity|]. rewrite <- !app_assoc. reflexivity.
Qed.

Lemma no_update_notification_app (l1 l2 : list Event) :
  no_update_notification (l1 ++ l2) =
  no_update_notification l1 && no_update_notification l2.
Proof. apply forallb_app. Qed.

(** C2, as the code has it.  A tick that answers true ends by notifying the
    script collaborator (OnWeatherUpdate, then the map event), whether or not
    the weather changed, and notifies it nowhere before that.  The tick that
    answers false, the one whose broadcast found nobody in the zone, returns
    at line 67, straight after the zone message, and does not notify it. *)
Theorem Update_notifies_unless_inactive (diff : Z) (s : Sys) :
  let r := Update diff s in
  (fst r = true ->
     exists before,
       events_since s (snd r) = before ++ [OnWeatherUpdate diff; FireOnWeatherUpdate] /\
       no_update_notification before = true) /\
  (fst r = false ->
     no_update_notification (events_since s (snd r)) = true /\
     timer_fires diff s = true /\ fst (regenerated diff s) = true /\
     zone_has_players (world s) = false /\
     exists before state intensity,
       events_since s (snd r) = before ++ [SendZoneMessage (cur_zone s) state intensity]).
Proof.
  cbv zeta. pose proof (Update_trace diff s) as H. cbv zeta in H.
  destruct H as (logs & Hshape & _ & Hfst & Hev).
  apply events_since_app in Hev. rewrite Hev, Hfst. clear Hev Hfst.
  assert (Hlogs : no_update_notification logs = true).
  { destruct Hshape as [->|(n & z & ->)]; reflexivity. }
  split.
  - intros Hr. rewrite Hr. rewrite app_assoc. eexists. split; [reflexivity|].
    rewrite no_update_notification_app, Hlogs.
    destruct (timer_fires diff s && fst (regenerated diff s)); [|reflexivity].
    unfold UpdateWeather_events. destruct (zone_has_players (world s)); reflexivity.
  - intros Hr. apply negb_false_iff in Hr. rewrite Hr.
    apply andb_true_iff in Hr. destruct Hr as [Hsends Hnone].
    rewrite Hsends. apply andb_true_iff in Hsends. destruct Hsends as [Hf Hc].
    apply negb_true_iff in Hnone. rewrite Hnone. simpl negb. cbv iota.
    unfold UpdateWeather_events. rewrite app_nil_r.
    split; [|split; [exact Hf|split; [exact Hc|split; [reflexivity|]]]].
    + rewrite no_update_notification_app, Hlogs. reflexivity.
    + eexists _, _, _. reflexivity.
Qed.

(** ** Without a chance table *)

Lemma Update_without_chances (diff : Z) (s : Sys) :
  m_weatherChances (self s) = None ->
  Update diff s =
    (true,
     notify_update diff
       (if timer_fires diff s
        then cleared (with_timer (IntervalTimer_Reset (cur_timer (tick_timer diff s)))
                        (tick_timer diff s))
        else tick_timer diff s)).
Proof.
  intros Hnone. rewrite Update_eq. cbv zeta. fold (timer_fires diff s).
  destruct (timer_fires diff s); [|reflexivity].
  rewrite ReGenerate_none by exact Hnone. reflexivity.
Qed.

Lemma broadcasts_app (l1 l2 : list Event) :
  broadcasts (l1 ++ l2) = broadcasts l1 ++ broadcasts l2.
Proof. apply filter_app. Qed.

Lemma run_ticks_without_chances (diffs : list Z) :
  forall s, m_weatherChances (self s) = None ->
  exists new,
    fst (run_ticks diffs s) = true /\
    events (world (snd (run_ticks diffs s))) = events (world s) ++ new /\
    broadcasts new = [] /\
    m_weatherChances (self (snd (run_ticks diffs s))) = None /\
    (cur_type s = WEATHER_TYPE_FINE -> cur_intensity s = f_zero ->
     cur_type (snd (run_ticks diffs s)) = WEATHER_TYPE_FINE /\
     cur_intensity (snd (run_ticks diffs s)) = f_zero).
Proof.
  induction diffs as [|d rest IH]; intros s Hnone.
  - exists []. simpl. rewrite app_nil_r. repeat split; assumption.
  - simpl. rewrite (Update_without_chances d s Hnone).
    set (s' := notify_update d _).
    assert (Hnone' : m_weatherChances (self s') = None).
    { subst s'. destruct (timer_fires d s); exact Hnone. }
    assert (Hev' : events (world s') =
                   events (world s) ++ [OnWeatherUpdate d; FireOnWeatherUpdate]).
    { subst s'. unfold notify_update. rewrite with_events_events.
      destruct (timer_fires d s); reflexivity. }
    assert (Hfine' : cur_type s = WEATHER_TYPE_FINE -> cur_intensity s = f_zero ->
                     cur_type s' = WEATHER_TYPE_FINE /\ cur_intensity s' = f_zero).
    { subst s'. intros Ht Hi. destruct (timer_fires d s); simpl; auto. }
    destruct (IH s' Hnone') as (new & Hfst & Hev & Hb & Hn & Hfine).
    exists ([OnWeatherUpdate d; FireOnWeatherUpdate] ++ new).
    split; [exact Hfst|]. split; [rewrite Hev, Hev', <- app_assoc; reflexivity|].
    split; [rewrite broadcasts_app, Hb; reflexivity|]. split; [exact Hn|].
    intros Ht Hi. destruct (Hfine' Ht Hi) as [Ht' Hi']. auto.
Qed.

(** C9. Without a chance table, [ReGenerate] sets type Fine and intensity 0
    and returns false, whatever the state was; so a tick whose timer fires
    leaves (Fine, 0), and no sequence of ticks ever sends a zone message:
    every tick answers true, and a Fine state stays Fine. *)
Theorem no_chance_table_degrades_to_fine (s : Sys) :
  m_weatherChances (self s) = None ->
  (fst (ReGenerate s) = false /\
   cur_type (snd (ReGenerate s)) = WEATHER_TYPE_FINE /\
   cur_intensity (snd (ReGenerate s)) = f_zero /\
   events (world (snd (ReGenerate s))) = events (world s)) /\
  (forall diff, timer_fires diff s = true ->
     cur_type (snd (Update diff s)) = WEATHER_TYPE_FINE /\
     cur_intensity (snd (Update diff s)) = f_zero) /\
  (forall diffs,
     fst (run_ticks diffs s) = true /\
     broadcasts (events_since s (snd (run_ticks diffs s))) = [] /\
     m_weatherChances (self (snd (run_ticks diffs s))) = None /\
     (cur_type s = WEATHER_TYPE_FINE -> cur_intensity s = f_zero ->
      cur_type (snd (run_ticks diffs s)) = WEATHER_TYPE_FINE /\
      cur_intensity (snd (run_ticks diffs s)) = f_zero)).
Proof.
  intros Hnone. split; [|split].
  - rewrite (ReGenerate_none s Hnone). repeat split.
  - intros diff Hfire. rewrite (Update_without_chances diff s Hnone), Hfire.
    split; reflexivity.
  - intros diffs.
    destruct (run_ticks_without_chances diffs s Hnone) as (new & Hfst & Hev & Hb & Hn & Hf).
    rewrite (events_since_app _ _ _ Hev). auto.
Qed.

(** ** Weather::SetWeather *)

Lemma WeatherType_eqb_eq (a b : WeatherType) : WeatherType_eqb a b = true <-> a = b.
Proof.
  destruct a, b; simpl; split; try congruence.
  - intros H. apply Z.eqb_eq in H. now subst.
  - intros H. injection H as ->. apply Z.eqb_refl.
Qed.

Lemma SetWeather_eq (type : WeatherType) (intensity : float32) (ts : bool) (s : Sys) :
  SetWeather type intensity ts s =
    if WeatherType_eqb (cur_type s) type && f32_eq (cur_intensity s) intensity
    then (tt, s)
    else (tt, snd (UpdateWeather ts (with_intensity intensity (with_type type s)))).
Proof.
  unfold SetWeather, run, SetWeather_body, bind, read, when, modify, call, pure, return_.
  destruct (WeatherType_eqb (cur_type s) type && f32_eq (cur_intensity s) intensity);
    [reflexivity|].
  destruct (UpdateWeather ts _) as [b s']. reflexivity.
Qed.

(** An intensity in [0, 1) passes lines 223-226 unchanged. *)
Lemma clamp_intensity_in_range (i : float32) :
  f32_le f_zero i = true -> f32_lt i f_one = true -> clamp_intensity i = i.
Proof.
  intros H0 H1. unfold clamp_intensity.
  rewrite (f32_lt_not_ge _ _ H1). fold (f32_ge i f_zero) in H0.
  now rewrite (f32_ge_not_lt _ _ H0).
Qed.

(** C6, as the code has it.  [SetWeather] does nothing when the requested
    type equals the current one and the requested intensity compares equal
    ([==]) to the current one; otherwise it assigns both fields and performs
    one UpdateWeather, which sends one zone message and stores the clamped
    intensity.  For a requested intensity in [0, 1) a second call with the
    same arguments is a no-op, so that the two calls send one zone message
    when the first call changed something, and none otherwise. *)
Theorem SetWeather_idempotent_within_range
    (type : WeatherType) (intensity : float32) (ts : bool) (s : Sys) :
  let same := WeatherType_eqb (cur_type s) type && f32_eq (cur_intensity s) intensity in
  let s1 := snd (SetWeather type intensity ts s) in
  let s2 := snd (SetWeather type intensity ts s1) in
  let c := clamp_intensity intensity in
  (same = true -> s1 = s) /\
  (same = false ->
     cur_type s1 = type /\ cur_intensity s1 = c /\
     broadcasts (events_since s s1) =
       [SendZoneMessage (cur_zone s) (Classify type c) c]) /\
  (f32_le f_zero intensity = true -> f32_lt intensity f_one = true ->
     s2 = s1 /\
     broadcasts (events_since s s2) =
       if same then [] else [SendZoneMessage (cur_zone s) (Classify type c) c]).
Proof.
  cbv zeta. rewrite (SetWeather_eq type intensity ts s).
  set (same := WeatherType_eqb (cur_type s) type && f32_eq (cur_intensity s) intensity).
  set (c := clamp_intensity intensity).
  pose proof (UpdateWeather_spec ts (with_intensity intensity (with_type type s))) as H.
  cbv zeta in H. destruct H as (_ & Hself & Hev).
  set (s' := snd (UpdateWeather ts (with_intensity intensity (with_type type s)))) in *.
  change (cur_intensity (with_intensity intensity (with_type type s)))
    with intensity in Hself, Hev.
  change (cur_type (with_intensity intensity (with_type type s))) with type in Hev.
  change (cur_zone (with_intensity intensity (with_type type s))) with (cur_zone s) in Hev.
  change (events (world (with_intensity intensity (with_type type s))))
    with (events (world s)) in Hev.
  fold c in Hself, Hev.
  assert (Hty : cur_type s' = type) by (unfold cur_type; rewrite Hself; reflexivity).
  assert (Hin : cur_intensity s' = c) by (unfold cur_intensity; rewrite Hself; reflexivity).
  assert (Hb : broadcasts (events_since s s') =
               [SendZoneMessage (cur_zone s) (Classify type c) c]).
  { rewrite (events_since_app _ _ _ Hev). unfold UpdateWeather_events, broadcasts.
    destruct (zone_has_players _), ts; reflexivity. }
  split; [|split].
  - intros ->. reflexivity.
  - intros ->. simpl snd. auto.
  - intros H0 H1.
    assert (Hc : c = intensity) by (apply clamp_intensity_in_range; assumption).
    assert (Hrefl : f32_eq intensity intensity = true)
      by (apply f32_eq_refl; apply (f32_le_not_nan _ _ H0)).
    destruct same eqn:Hsame; simpl snd.
    + rewrite (SetWeather_eq type intensity ts s). fold same. rewrite Hsame.
      split; [reflexivity|]. simpl snd. unfold events_since.
      rewrite <- (app_nil_r (events (world s))) at 2. now rewrite skipn_own_length.
    + assert (Hagain : SetWeather type intensity ts s' = (tt, s')).
      { rewrite (SetWeather_eq type intensity ts s'), Hty, Hin, Hc, Hrefl.
        replace (WeatherType_eqb type type) with true
          by (symmetry; now apply WeatherType_eqb_eq).
        reflexivity. }
      rewrite Hagain. simpl snd. split; [reflexivity|exact Hb].
Qed.

(** ** The season *)

Section Agree.
Context {R : Type}.

Lemma agree_pure {A} (a : A) : agree (pure a : Stmt R A) (pure a).
Proof. intros s1 s2 H. split; [reflexivity|exact H]. Qed.

Lemma agree_return {A} (r : R) : agree (return_ r : Stmt R A) (return_ r).
Proof. intros s1 s2 H. split; [reflexivity|exact H]. Qed.

Lemma agree_read {A} (f : Sys -> A) :
  (forall s1 s2, same_but_calendar s1 s2 -> f s1 = f s2) ->
  agree (read f : Stmt R A) (read f).
Proof. intros Hf s1 s2 H. simpl. split; [f_equal; auto|exact H]. Qed.

Lemma agree_modify (f : Sys -> Sys) :
  (forall s1 s2, same_but_calendar s1 s2 -> same_but_calendar (f s1) (f s2)) ->
  agree (modify f : Stmt R unit) (modify f).
Proof. intros Hf s1 s2 H. simpl. split; [reflexivity|auto]. Qed.

Lemma agree_bind {A B} (m1 m2 : Stmt R A) (k1 k2 : A -> Stmt R B) :
  agree m1 m2 -> (forall a, agree (k1 a) (k2 a)) -> agree (bind m1 k1) (bind m2 k2).
Proof.
  intros Hm Hk s1 s2 H. unfold bind. destruct (Hm s1 s2 H) as [Hf Hs].
  destruct (m1 s1) as [[r1|a1] s1'], (m2 s2) as [[r2|a2] s2']; simpl in *;
    try discriminate.
  - split; [congruence|exact Hs].
  - injection Hf as ->. apply Hk, Hs.
Qed.

Lemma agree_when (c : bool) (b1 b2 : Stmt R unit) :
  agree b1 b2 -> agree (when c b1) (when c b2).
Proof. intros Hb. unfold when. destruct c; [exact Hb|apply agree_pure]. Qed.

Lemma agree_if {A} (c : bool) (m1 m2 n1 n2 : Stmt R A) :
  agree m1 m2 -> agree n1 n2 ->
  agree (if c then m1 else n1) (if c then m2 else n2).
Proof. destruct c; auto. Qed.

Lemma agree_urand (lo hi : Z) : agree (urand lo hi : Stmt R Z) (urand lo hi).
Proof.
  intros s1 s2 (Hs & Hu & Hn & Hp & Hz). unfold urand, urand_value; simpl.
  rewrite Hu, Hp. split; [reflexivity|].
  unfold same_but_calendar; simpl. rewrite Hp. auto.
Qed.

Lemma agree_rand_norm : agree (rand_norm_f : Stmt R float32) rand_norm_f.
Proof.
  intros s1 s2 (Hs & Hu & Hn & Hp & Hz). unfold rand_norm_f; simpl.
  rewrite Hn, Hp. split; [reflexivity|].
  unfold same_but_calendar; simpl. rewrite Hp. auto.
Qed.

Lemma agree_run (m1 m2 : Stmt R R) (s1 s2 : Sys) :
  agree m1 m2 -> same_but_calendar s1 s2 ->
  fst (run m1 s1) = fst (run m2 s2) /\
  same_but_calendar (snd (run m1 s1)) (snd (run m2 s2)).
Proof.
  intros Hm H. unfold run. destruct (Hm s1 s2 H) as [Hf Hs].
  destruct (m1 s1) as [[r1|a1] s1'], (m2 s2) as [[r2|a2] s2']; simpl in *;
    try discriminate; split; congruence.
Qed.
End Agree.

Lemma same_but_calendar_with_type t s1 s2 :
  same_but_calendar s1 s2 -> same_but_calendar (with_type t s1) (with_type t s2).
Proof.
  intros (Hs & Hrest). unfold same_but_calendar; simpl. rewrite Hs. auto.
Qed.

Lemma same_but_calendar_with_intensity i s1 s2 :
  same_but_calendar s1 s2 ->
  same_but_calendar (with_intensity i s1) (with_intensity i s2).
Proof.
  intros (Hs & Hrest). unfold same_but_calendar; simpl. rewrite Hs. auto.
Qed.

Lemma same_but_calendar_reads s1 s2 :
  same_but_calendar s1 s2 ->
  cur_type s1 = cur_type s2 /\ cur_intensity s1 = cur_intensity s2 /\
  urand_value 0 99 (world s1) = urand_value 0 99 (world s2).
Proof.
  intros (Hs & Hu & Hn & Hp & Hz). unfold cur_type, cur_intensity, urand_value.
  rewrite Hs, Hu, Hp. auto.
Qed.

Ltac agrees :=
  repeat first
    [ apply agree_urand
    | apply agree_rand_norm
    | apply agree_pure
    | apply agree_return
    | apply agree_read; intros ? ? ?;
      match goal with
      | H : same_but_calendar _ _ |- _ => apply (same_but_calendar_reads _ _ H)
      end
    | apply agree_modify; intros ? ? ?;
      first [ apply same_but_calendar_with_type; assumption
            | apply same_but_calendar_with_intensity; assumption ]
    | apply agree_when
    | apply agree_if
    | apply agree_bind; [|intros ?] ].

Lemma transitions_agree (wd : WeatherData) (u : Z) (s1 s2 : Sys) :
  same_but_calendar s1 s2 ->
  data_at wd (season_of_yday (game_yday (world s1))) =
  data_at wd (season_of_yday (game_yday (world s2))) ->
  agree (transitions wd u s1) (transitions wd u s2).
Proof.
  intros H Hrow. destruct (same_but_calendar_reads _ _ H) as (Ht & Hi & _).
  unfold transitions, pick_new_weather. cbv zeta. rewrite Hrow, Ht, Hi.
  unfold get_fair, get_better, get_worse, radical_change, clear_up. agrees.
Qed.

(** C8. The season index is [((day_of_year - 78 + 365) / 91) mod 4]: day 78
    gives 0, day 169 gives 1, day 0 gives 3, and every day of the year gives
    an index below 4.  ReGenerate uses the season for the row of the chance
    table and for the log line only: two runs that differ in the calendar
    but meet the same row return the same value and leave the same object,
    the only event of a run is that log line, and the calendar is not
    written. *)
Theorem season_index_and_use :
  season_of_yday 78 = 0 /\ season_of_yday 169 = 1 /\ season_of_yday 0 = 3 /\
  (forall d, 0 <= d <= 365 ->
     season_of_yday d = ((d - 78 + 365) / 91) mod 4 /\
     0 <= season_of_yday d < WEATHER_SEASONS) /\
  (forall s1 s2 wd,
     same_but_calendar s1 s2 ->
     m_weatherChances (self s1) = Some wd ->
     data_at wd (season_of_yday (game_yday (world s1))) =
     data_at wd (season_of_yday (game_yday (world s2))) ->
     fst (ReGenerate s1) = fst (ReGenerate s2) /\
     self (snd (ReGenerate s1)) = self (snd (ReGenerate s2))) /\
  (forall s,
     game_yday (world (snd (ReGenerate s))) = game_yday (world s) /\
     (events_since s (snd (ReGenerate s)) = [] \/
      events_since s (snd (ReGenerate s)) =
        [LogGenerating (seasonName (season_of_yday (game_yday (world s))))
           (cur_zone s)])).
Proof.
  split; [reflexivity|]. split; [reflexivity|]. split; [reflexivity|].
  split; [|split].
  - intros d Hd. unfold season_of_yday, u32, WEATHER_SEASONS.
    rewrite Z.quot_div_nonneg by lia.
    assert (Hq : 0 <= (d - 78 + 365) / 91) by (apply Z.div_pos; lia).
    rewrite Z.rem_mod_nonneg by lia.
    pose proof (Z.mod_pos_bound ((d - 78 + 365) / 91) 4 ltac:(lia)) as Hm.
    rewrite Z.mod_small by lia. split; [reflexivity|lia].
  - intros s1 s2 wd H Hwd Hrow.
    assert (Hwd2 : m_weatherChances (self s2) = Some wd)
      by (destruct H as (Hs & _); rewrite <- Hs; exact Hwd).
    rewrite (ReGenerate_some s1 wd Hwd), (ReGenerate_some s2 wd Hwd2).
    destruct (same_but_calendar_reads _ _ H) as (_ & _ & Hu). rewrite Hu.
    destruct (urand_value 0 99 (world s2) <? 30).
    + simpl. split; [reflexivity|apply H].
    + assert (Hafter : same_but_calendar (after_draw s1) (after_draw s2)).
      { destruct H as (Hs & Ht & Hn & Hp & Hz).
        unfold same_but_calendar, after_draw; simpl. rewrite Hp. auto. }
      destruct (agree_run _ _ _ _
                  (transitions_agree wd (urand_value 0 99 (world s2)) s1 s2 H Hrow)
                  Hafter) as [Hf Hs].
      split; [exact Hf|apply Hs].
  - intros s. split; [apply ReGenerate_frame|].
    destruct (ReGenerate_events s) as [Hev|Hev].
    + left. apply events_since_app. now rewrite app_nil_r.
    + right. apply events_since_app. exact Hev.
Qed.

(** ** Which types the cycle can reach *)

Lemma seasonal_is_one_of_four (t : WeatherType) :
  seasonal t = true ->
  t = WEATHER_TYPE_FINE \/ t = WEATHER_TYPE_RAIN \/
  t = WEATHER_TYPE_SNOW \/ t = WEATHER_TYPE_STORM.
Proof. destruct t; simpl; intros H; try discriminate H; auto. Qed.

(** C10, as the code has it.  [ReGenerate] never introduces BlackRain or
    Thunders: the type afterwards is the type before or one of Fine, Rain,
    Snow, Storm; so from a type that is neither BlackRain nor Thunders it
    is neither of them afterwards, and from one of the four it is one of
    the four; the seasonal pick, from any state, ends in one of these four;
    a tick behaves as ReGenerate does, while [SetWeather] installs whatever
    type it is given. *)
Theorem ReGenerate_stays_seasonal (s : Sys) :
  (let t' := cur_type (snd (ReGenerate s)) in
   t' = cur_type s \/ t' = WEATHER_TYPE_FINE \/ t' = WEATHER_TYPE_RAIN \/
   t' = WEATHER_TYPE_SNOW \/ t' = WEATHER_TYPE_STORM) /\
  (cur_type s <> WEATHER_TYPE_BLACKRAIN -> cur_type s <> WEATHER_TYPE_THUNDERS ->
   cur_type (snd (ReGenerate s)) <> WEATHER_TYPE_BLACKRAIN /\
   cur_type (snd (ReGenerate s)) <> WEATHER_TYPE_THUNDERS) /\
  (seasonal (cur_type s) = true ->
   let t' := cur_type (snd (ReGenerate s)) in
   t' = WEATHER_TYPE_FINE \/ t' = WEATHER_TYPE_RAIN \/
   t' = WEATHER_TYPE_SNOW \/ t' = WEATHER_TYPE_STORM) /\
  (forall wd season u old_type old_intensity,
     seasonal
       (cur_type (snd (pick_new_weather wd season u old_type old_intensity s))) = true) /\
  (forall diff, seasonal (cur_type s) = true ->
     seasonal (cur_type (snd (Update diff s))) = true) /\
  (forall diff,
     cur_type (snd (Update diff s)) = cur_type s \/
     seasonal (cur_type (snd (Update diff s))) = true) /\
  (forall type intensity ts, cur_type (snd (SetWeather type intensity ts s)) = type).
Proof.
  set (I := fun s' : Sys => seasonal (cur_type s') = true).
  assert (Ht : forall t s', seasonal t = true -> I s' -> I (with_type t s'))
    by (intros; assumption).
  assert (Hi : forall i s', I s' -> I (with_intensity i s')) by (intros; assumption).
  assert (Hr : forall s', I s' -> I (with_rng_next s')) by (intros; assumption).
  assert (Hl : forall n z s', I s' -> I (with_event (LogGenerating n z) s'))
    by (intros; assumption).
  (* the type before, or one of the four *)
  set (J := fun t0 (s' : Sys) => cur_type s' = t0 \/ seasonal (cur_type s') = true).
  assert (Jt : forall t0 t s', seasonal t = true -> J t0 s' -> J t0 (with_type t s'))
    by (intros t0 t s' Hs _; right; exact Hs).
  assert (Ji : forall t0 i s', J t0 s' -> J t0 (with_intensity i s'))
    by (intros; assumption).
  assert (Jr : forall t0 s', J t0 s' -> J t0 (with_rng_next s')) by (intros; assumption).
  assert (Jl : forall t0 n z s', J t0 s' -> J t0 (with_event (LogGenerating n z) s'))
    by (intros; assumption).
  assert (HJ : forall x, J (cur_type x) (snd (ReGenerate x))).
  { intros x. apply (ReGenerate_keeps (J (cur_type x)) (Jt _) (Ji _) (Jr _) (Jl _)).
    left. reflexivity. }
  assert (Hupd : forall x, cur_type (snd (UpdateWeather_default x)) = cur_type x).
  { intros x. pose proof (UpdateWeather_spec true x) as H. cbv zeta in H.
    destruct H as (_ & Hself & _). unfold cur_type, UpdateWeather_default.
    rewrite Hself. reflexivity. }
  split; [|split; [|split; [|split; [|split; [|split]]]]].
  - cbv zeta. destruct (HJ s) as [H|H]; [left; exact H|right].
    now apply seasonal_is_one_of_four.
  - intros Hb Hth. destruct (HJ s) as [H|H].
    + rewrite H. split; assumption.
    + destruct (cur_type (snd (ReGenerate s))); simpl in H; try discriminate H;
        split; discriminate.
  - intros Hs. cbv zeta. apply seasonal_is_one_of_four.
    exact (ReGenerate_keeps I Ht Hi Hr Hl s Hs).
  - intros wd season u ot oi. unfold pick_new_weather. cbv zeta.
    unfold bind at 1. unfold urand at 1.
    unfold bind at 1. unfold modify at 1.
    match goal with
    | |- context [with_type ?t (with_rng_next s)] =>
        set (s1 := with_type t (with_rng_next s));
        assert (H1 : I s1)
          by (subst s1; unfold I; simpl;
              repeat match goal with |- context [if ?c then _ else _] => destruct c end;
              reflexivity)
    end.
    clearbody s1.
    match goal with
    | |- seasonal (cur_type (snd (?m s1))) = true => assert (Hm : preserves I m)
    end.
    { repeat first
        [ apply (urand_keeps I Hr) | apply (rand_norm_keeps I Hr)
        | apply preserves_read | apply preserves_return
        | apply preserves_modify; intros ? ?; assumption
        | apply preserves_if
        | apply preserves_bind; [|intros ?] ]. }
    exact (Hm s1 H1).
  - intros diff Hs. rewrite Update_eq. cbv zeta.
    destruct (IntervalTimer_Passed (cur_timer (tick_timer diff s))); [|exact Hs].
    set (r := ReGenerate _).
    assert (Hr' : I (snd r)) by (apply (ReGenerate_keeps I Ht Hi Hr Hl); exact Hs).
    unfold I in Hr'.
    destruct (fst r); [|exact Hr'].
    destruct (fst (UpdateWeather_default (snd r)));
      [change (cur_type (snd (true, notify_update diff
                                      (snd (UpdateWeather_default (snd r))))))
         with (cur_type (snd (UpdateWeather_default (snd r))))|simpl snd];
      rewrite Hupd; exact Hr'.
  - intros diff. rewrite Update_eq. cbv zeta.
    destruct (IntervalTimer_Passed (cur_timer (tick_timer diff s)));
      [|left; reflexivity].
    set (s2 := with_timer _ (tick_timer diff s)).
    pose proof (HJ s2) as Hr'. unfold J in Hr'.
    change (cur_type s2) with (cur_type s) in Hr'.
    destruct (fst (ReGenerate s2)); [|exact Hr'].
    destruct (fst (UpdateWeather_default (snd (ReGenerate s2))));
      [change (cur_type (snd (true, notify_update diff
                                      (snd (UpdateWeather_default (snd (ReGenerate s2)))))))
         with (cur_type (snd (UpdateWeather_default (snd (ReGenerate s2)))))|simpl snd];
      rewrite Hupd; exact Hr'.
  - intros type intensity ts. rewrite SetWeather_eq.
    destruct (WeatherType_eqb (cur_type s) type && f32_eq (cur_intensity s) intensity)
      eqn:E.
    + apply andb_true_iff in E. destruct E as [E _]. now apply WeatherType_eqb_eq.
    + pose proof (UpdateWeather_spec ts (with_intensity intensity (with_type type s)))
        as H. cbv zeta in H. destruct H as (_ & Hself & _).
      simpl snd. unfold cur_type. rewrite Hself. reflexivity.
Qed.

(** * The theorems on sample states *)

Lemma sample_literals :
  f32_lit 5 10 = f_0_5 /\ f32_of_Z 2 = f_2 /\ f32_of_Z (-1) = f_minus_1 /\
  f32_lit 5 100000 = f_0_00005.
Proof. vm_compute. repeat split. Qed.

(** ** The broadcast *)

Lemma broadcast_intensity_clamped_witness :
  (f32_ge f_2 f_one = true /\ clamp_intensity f_2 = f_0_9999) /\
  (f32_lt f_minus_1 f_zero = true /\ clamp_intensity f_minus_1 = f_0_0001) /\
  (f32_ge f_0_5 f_one = false /\ f32_lt f_0_5 f_zero = false /\
   clamp_intensity f_0_5 = f_0_5) /\
  (is_nan f_0_5 = false /\
   f32_le f_zero (clamp_intensity f_0_5) = true /\
   f32_lt (clamp_intensity f_0_5) f_one = true).
Proof.
  split; [|split; [|split]].
  - split; [reflexivity|].
    pose proof (broadcast_intensity_clamped true (sample_unconfigured f_2)) as H.
    cbv zeta in H. destruct H as (_ & _ & H & _). apply H. reflexivity.
  - split; [reflexivity|].
    pose proof (broadcast_intensity_clamped true (sample_unconfigured f_minus_1)) as H.
    cbv zeta in H. destruct H as (_ & _ & _ & H & _). apply H. reflexivity.
  - split; [reflexivity|]. split; [reflexivity|].
    pose proof (broadcast_intensity_clamped true (sample_unconfigured f_0_5)) as H.
    cbv zeta in H. destruct H as (_ & _ & _ & _ & H & _). apply H; reflexivity.
  - split; [reflexivity|].
    pose proof (broadcast_intensity_clamped true (sample_unconfigured f_0_5)) as H.
    cbv zeta in H. destruct H as (_ & _ & _ & _ & _ & _ & _ & _ & H). apply H.
    reflexivity.
Defined.

(** C1 as stated fails.  A tick takes rain at 1/3 to rain at 0 ("get
    better") and broadcasts it: the message carries exactly 0.0 while the
    type is Rain.  And a stored 0.00005 is sent as it is, below 0.0001. *)
Lemma broadcast_can_carry_zero :
  cur_type (snd (Update 1 sample_busy)) = WEATHER_TYPE_RAIN /\
  broadcasts (events_since sample_busy (snd (Update 1 sample_busy))) =
    [SendZoneMessage 1 WEATHER_STATE_FINE (S754_zero false)] /\
  f32_le f_0_0001 (S754_zero false) = false /\
  broadcasts (events_since (sample_unconfigured f_0_00005)
                (snd (UpdateWeather true (sample_unconfigured f_0_00005)))) =
    [SendZoneMessage 1 WEATHER_STATE_FINE f_0_00005] /\
  f32_le f_0_0001 f_0_00005 = false.
Proof. vm_compute. repeat split. Qed.

(** ** The tick *)

Lemma Update_notifies_unless_inactive_witness :
  (fst (Update 1 sample_busy) = true /\
   exists before,
     events_since sample_busy (snd (Update 1 sample_busy)) =
       before ++ [OnWeatherUpdate 1; FireOnWeatherUpdate] /\
     no_update_notification before = true) /\
  (fst (Update 1 sample_deserted) = false /\
   no_update_notification
     (events_since sample_deserted (snd (Update 1 sample_deserted))) = true).
Proof.
  split.
  - split; [reflexivity|].
    apply (Update_notifies_unless_inactive 1 sample_busy). reflexivity.
  - split; [reflexivity|].
    apply (Update_notifies_unless_inactive 1 sample_deserted). reflexivity.
Defined.

(** C2 as stated fails.  With nobody in the zone the tick whose ReGenerate
    changed the weather answers false, and its whole trace is the log line
    and the zone message: the script collaborator is not notified. *)
Lemma inactive_tick_does_not_notify :
  fst (Update 1 sample_deserted) = false /\
  events_since sample_deserted (snd (Update 1 sample_deserted)) =
    [LogGenerating "spring" 1;
     SendZoneMessage 1 WEATHER_STATE_FINE (S754_zero false)] /\
  ~ In (OnWeatherUpdate 1)
       (events_since sample_deserted (snd (Update 1 sample_deserted))).
Proof.
  split; [reflexivity|]. split; [reflexivity|].
  vm_compute. intros [H|[H|[]]]; discriminate H.
Qed.

(** ** ReGenerate *)

Lemma get_fair_collapses_and_falls_through_witness :
  m_weatherChances (self sample_light) = Some sample_chances /\
  30 <= urand_value 0 99 (world sample_light) <= 59 /\
  f32_lt (cur_intensity sample_light) f_0_33333334 = true /\
  get_better 45 (cleared (after_draw sample_light)) =
    (Next tt, cleared (after_draw sample_light)) /\
  ReGenerate sample_light =
    run (pick_new_weather sample_chances 0 45 WEATHER_TYPE_RAIN f_0_27)
        (cleared (after_draw sample_light)).
Proof.
  assert (H1 : m_weatherChances (self sample_light) = Some sample_chances)
    by reflexivity.
  assert (H2 : 30 <= urand_value 0 99 (world sample_light) <= 59)
    by (vm_compute; split; discriminate).
  assert (H3 : f32_lt (cur_intensity sample_light) f_0_33333334 = true)
    by reflexivity.
  pose proof (get_fair_collapses_and_falls_through sample_light sample_chances H1 H2 H3)
    as H.
  cbv zeta in H. destruct H as (_ & _ & _ & Hb & _ & _ & Hr).
  split; [exact H1|]. split; [exact H2|]. split; [exact H3|].
  split; [exact Hb|exact Hr].
Defined.

(** C3 as stated fails in its last part.  After the collapse the type is
    Fine, so the "get better" statement never takes its branch: no state and
    no draw make it return after the collapse. *)
Lemma collapse_is_never_followed_by_decrement :
  ~ exists (s : Sys) (u : Z),
      30 <= u <= 59 /\
      f32_lt (cur_intensity s) f_0_33333334 = true /\
      fst (get_better u (snd (get_fair u s))) = Returned true.
Proof.
  intros (s & u & Hu & Hi & Hret).
  rewrite get_fair_eq, Hi in Hret.
  replace (u <? 60) with true in Hret by (symmetry; apply Z.ltb_lt; lia).
  simpl andb in Hret. cbv iota in Hret. simpl snd in Hret.
  rewrite get_better_eq, cleared_is_fine, andb_false_r in Hret.
  discriminate Hret.
Qed.

Lemma ReGenerate_below_30_is_no_change_witness :
  m_weatherChances (self sample_fine) = Some sample_chances /\
  0 <= urand_value 0 99 (world sample_fine) <= 29 /\
  fst (ReGenerate sample_fine) = false /\
  cur_type (snd (ReGenerate sample_fine)) = WEATHER_TYPE_FINE /\
  cur_intensity (snd (ReGenerate sample_fine)) = f_zero.
Proof.
  assert (H1 : m_weatherChances (self sample_fine) = Some sample_chances)
    by reflexivity.
  assert (H2 : 0 <= urand_value 0 99 (world sample_fine) <= 29)
    by (vm_compute; split; discriminate).
  destruct (ReGenerate_below_30_is_no_change sample_fine sample_chances H1 H2)
    as (Hf & Ht & Hi & _).
  split; [exact H1|]. split; [exact H2|]. split; [exact Hf|].
  split; [exact Ht|exact Hi].
Defined.

Lemma radical_change_branches_witness :
  (f32_lt f_0_27 f_0_33333334 = true /\
   ReGenerate (sample_radical f_0_27 10) =
     (true, with_intensity f_0_9999 (after_draw (sample_radical f_0_27 10)))) /\
  (f32_gt f_0_70 f_0_6666667 = true /\
   ReGenerate (sample_radical f_0_70 10) =
     (true, with_intensity (f32_sub f_0_70 f_0_6666667)
              (with_rng_next (after_draw (sample_radical f_0_70 10))))) /\
  (f32_gt f_0_70 f_0_6666667 = true /\
   radical_change (after_draw (sample_radical f_0_70 60)) =
     (Next tt, cleared (with_rng_next (after_draw (sample_radical f_0_70 60)))) /\
   cur_type (snd (ReGenerate (sample_radical f_0_70 60))) = WEATHER_TYPE_SNOW) /\
  (f32_ge f_0_40 f_0_33333334 = true /\ f32_le f_0_40 f_0_6666667 = true /\
   radical_change (after_draw (sample_radical f_0_40 10)) =
     (Next tt, cleared (after_draw (sample_radical f_0_40 10))) /\
   cur_type (snd (ReGenerate (sample_radical f_0_40 10))) = WEATHER_TYPE_RAIN).
Proof.
  assert (Hc : forall i rnd,
             m_weatherChances (self (sample_radical i rnd)) = Some sample_chances)
    by reflexivity.
  assert (Hu : forall i rnd, 90 <= urand_value 0 99 (world (sample_radical i rnd)))
    by (intros; vm_compute; discriminate).
  assert (Ht : forall i rnd, cur_type (sample_radical i rnd) <> WEATHER_TYPE_FINE)
    by (intros; discriminate).
  split; [|split; [|split]].
  - split; [reflexivity|].
    pose proof (radical_change_branches _ _ (Hc f_0_27 10) (Hu f_0_27 10) (Ht f_0_27 10))
      as H.
    cbv zeta in H. destruct H as (_ & H & _). apply H. reflexivity.
  - split; [reflexivity|].
    pose proof (radical_change_branches _ _ (Hc f_0_70 10) (Hu f_0_70 10) (Ht f_0_70 10))
      as H.
    cbv zeta in H. destruct H as (_ & _ & H & _). apply H; reflexivity.
  - split; [reflexivity|].
    pose proof (radical_change_branches _ _ (Hc f_0_70 60) (Hu f_0_70 60) (Ht f_0_70 60))
      as H.
    cbv zeta in H. destruct H as (_ & _ & _ & H & _).
    destruct H as (Hr & _ & _ & HR); [reflexivity|vm_compute; discriminate|].
    split; [exact Hr|]. rewrite HR. reflexivity.
  - split; [reflexivity|]. split; [reflexivity|].
    pose proof (radical_change_branches _ _ (Hc f_0_40 10) (Hu f_0_40 10) (Ht f_0_40 10))
      as H.
    cbv zeta in H. destruct H as (_ & _ & _ & _ & H).
    destruct H as (Hr & _ & _ & HR); [reflexivity|reflexivity|].
    split; [exact Hr|]. rewrite HR. reflexivity.
Defined.

Lemma season_index_and_use_witness :
  season_of_yday 200 = 1 /\
  fst (ReGenerate sample_light) =
  fst (ReGenerate
         (sample_sys WEATHER_TYPE_RAIN f_0_27 (Some sample_chances) (tape_const 45)
            true 300)) /\
  self (snd (ReGenerate sample_light)) =
  self (snd (ReGenerate
               (sample_sys WEATHER_TYPE_RAIN f_0_27 (Some sample_chances)
                  (tape_const 45) true 300))).
Proof.
  destruct season_index_and_use as (_ & _ & _ & Hidx & Huse & _).
  split.
  - destruct (Hidx 200 ltac:(lia)) as [-> _]. reflexivity.
  - apply (Huse sample_light _ sample_chances).
    + repeat split.
    + reflexivity.
    + reflexivity.
Defined.

Lemma no_chance_table_degrades_to_fine_witness :
  m_weatherChances (self (sample_unconfigured f_0_5)) = None /\
  fst (ReGenerate (sample_unconfigured f_0_5)) = false /\
  cur_type (snd (ReGenerate (sample_unconfigured f_0_5))) = WEATHER_TYPE_FINE /\
  cur_intensity (snd (ReGenerate (sample_unconfigured f_0_5))) = f_zero /\
  broadcasts
    (events_since (sample_unconfigured f_0_5)
       (snd (run_ticks [1; 1; 1] (sample_unconfigured f_0_5)))) = [].
Proof.
  assert (H0 : m_weatherChances (self (sample_unconfigured f_0_5)) = None)
    by reflexivity.
  destruct (no_chance_table_degrades_to_fine _ H0) as ((Hf & Ht & Hi & _) & _ & Hticks).
  split; [exact H0|]. split; [exact Hf|]. split; [exact Ht|]. split; [exact Hi|].
  apply (Hticks [1; 1; 1]).
Defined.

Lemma ReGenerate_stays_seasonal_witness :
  cur_type sample_light <> WEATHER_TYPE_BLACKRAIN /\
  cur_type sample_light <> WEATHER_TYPE_THUNDERS /\
  seasonal (cur_type sample_light) = true /\
  cur_type (snd (ReGenerate sample_light)) <> WEATHER_TYPE_BLACKRAIN /\
  cur_type (snd (ReGenerate sample_light)) <> WEATHER_TYPE_THUNDERS /\
  (cur_type (snd (ReGenerate sample_light)) = WEATHER_TYPE_FINE \/
   cur_type (snd (ReGenerate sample_light)) = WEATHER_TYPE_RAIN \/
   cur_type (snd (ReGenerate sample_light)) = WEATHER_TYPE_SNOW \/
   cur_type (snd (ReGenerate sample_light)) = WEATHER_TYPE_STORM).
Proof.
  assert (H1 : cur_type sample_light <> WEATHER_TYPE_BLACKRAIN) by discriminate.
  assert (H2 : cur_type sample_light <> WEATHER_TYPE_THUNDERS) by discriminate.
  assert (H3 : seasonal (cur_type sample_light) = true) by reflexivity.
  destruct (ReGenerate_stays_seasonal sample_light) as (_ & Hn & Hf & _).
  destruct (Hn H1 H2) as [Hb Ht].
  split; [exact H1|]. split; [exact H2|]. split; [exact H3|].
  split; [exact Hb|]. split; [exact Ht|]. exact (Hf H3).
Defined.

(** C10 as stated fails in its middle part.  A type that has no enumerator
    is neither BlackRain nor Thunders; with a draw of 10 ReGenerate returns
    at line 98 and the type is still that one, none of the four. *)
Lemma ReGenerate_keeps_an_unrecognized_type :
  cur_type sample_unrecognized <> WEATHER_TYPE_BLACKRAIN /\
  cur_type sample_unrecognized <> WEATHER_TYPE_THUNDERS /\
  cur_type (snd (ReGenerate sample_unrecognized)) = WeatherType_other 5 /\
  seasonal (cur_type (snd (ReGenerate sample_unrecognized))) = false.
Proof.
  split; [discriminate|]. split; [discriminate|]. split; reflexivity.
Qed.

(** ** SetWeather *)

Lemma SetWeather_idempotent_within_range_witness :
  f32_le f_zero f_0_5 = true /\ f32_lt f_0_5 f_one = true /\
  snd (SetWeather WEATHER_TYPE_RAIN f_0_5 true
         (snd (SetWeather WEATHER_TYPE_RAIN f_0_5 true sample_fine))) =
  snd (SetWeather WEATHER_TYPE_RAIN f_0_5 true sample_fine) /\
  broadcasts
    (events_since sample_fine
       (snd (SetWeather WEATHER_TYPE_RAIN f_0_5 true
               (snd (SetWeather WEATHER_TYPE_RAIN f_0_5 true sample_fine))))) =
    [SendZoneMessage 1 WEATHER_STATE_MEDIUM_RAIN f_0_5] /\
  snd (SetWeather WEATHER_TYPE_FINE f_zero true sample_fine) = sample_fine.
Proof.
  assert (H0 : f32_le f_zero f_0_5 = true) by reflexivity.
  assert (H1 : f32_lt f_0_5 f_one = true) by reflexivity.
  split; [exact H0|]. split; [exact H1|].
  pose proof (SetWeather_idempotent_within_range WEATHER_TYPE_RAIN f_0_5 true sample_fine)
    as H.
  cbv zeta in H. destruct H as (_ & _ & H). destruct (H H0 H1) as [Hs Hb].
  split; [exact Hs|]. split; [exact Hb|].
  pose proof (SetWeather_idempotent_within_range WEATHER_TYPE_FINE f_zero true sample_fine)
    as H'.
  cbv zeta in H'. destruct H' as (H' & _). apply H'. reflexivity.
Defined.

(** C6 as stated fails.  Asked twice for Rain at 2.0, [SetWeather]
    broadcasts twice: the first call stores the clamped 0.9999, which the
    second call finds different from the 2.0 it is given. *)
Lemma SetWeather_twice_can_broadcast_twice :
  broadcasts
    (events_since sample_fine
       (snd (SetWeather WEATHER_TYPE_RAIN f_2 true
               (snd (SetWeather WEATHER_TYPE_RAIN f_2 true sample_fine))))) =
    [SendZoneMessage 1 WEATHER_STATE_HEAVY_RAIN f_0_9999;
     SendZoneMessage 1 WEATHER_STATE_HEAVY_RAIN f_0_9999].
Proof. vm_compute. reflexivity. Qed.


(** * Beyond the claims: the other branches and functions *)

(** ** Comparisons do not tell apart values that compare equal *)

Lemma f32_eq_compare_l (a b c : float32) :
  f32_eq a b = true -> SFcompare a c = SFcompare b c.
Proof.
  unfold f32_eq, SFeqb.
  destruct a as [sa|sa| |sa ma ea], b as [sb|sb| |sb mb eb]; simpl;
    try discriminate;
    try (destruct sa; discriminate); try (destruct sb; discriminate).
  - intros _. destruct c; reflexivity.
  - destruct sa, sb; try discriminate; reflexivity.
  - change (Pos.compare_cont Eq ma mb) with (Pos.compare ma mb).
    destruct sa, sb; try discriminate;
      destruct (Z.compare_spec ea eb); try discriminate;
      destruct (Pos.compare_spec ma mb); try discriminate;
      subst; reflexivity.
Qed.

Lemma f32_eq_compare_r (a b c : float32) :
  f32_eq a b = true -> SFcompare c a = SFcompare c b.
Proof.
  intros H. rewrite (SFcompare_antisym a c), (SFcompare_antisym b c).
  now rewrite (f32_eq_compare_l a b c H).
Qed.

Lemma in_send_range_same (a b : float32) :
  same_intensity a b -> in_send_range a = in_send_range b.
Proof.
  intros [->|H]; [reflexivity|].
  unfold in_send_range, f32_ge, f32_lt, SFleb, SFltb.
  now rewrite (f32_eq_compare_r a b f_one H), (f32_eq_compare_l a b f_zero H).
Qed.

Lemma Classify_same (t : WeatherType) (a b : float32) :
  same_intensity a b -> Classify t a = Classify t b.
Proof.
  intros [->|H]; [reflexivity|].
  unfold Classify, f32_lt, SFltb.
  now rewrite (f32_eq_compare_l a b f_0_27 H), (f32_eq_compare_l a b f_0_40 H),
              (f32_eq_compare_l a b f_0_70 H).
Qed.

(** ** The value ReGenerate returns *)

(** The seasonal pick returns whether the state it leaves differs from the
    remembered one. *)
Lemma pick_new_weather_result wd season u old_type old_intensity (s : Sys) :
  let r := run (pick_new_weather wd season u old_type old_intensity) s in
  fst r = negb (WeatherType_eqb (cur_type (snd r)) old_type)
          || f32_ne (cur_intensity (snd r)) old_intensity.
Proof.
  cbv zeta.
  unfold pick_new_weather, run, bind, urand, rand_norm_f, modify, read, return_.
  cbv zeta.
  set (t := if _ <=? _ then _ else _). clearbody t. cbv beta iota.
  destruct (WeatherType_eqb (cur_type (with_type t (with_rng_next s))) WEATHER_TYPE_FINE);
    [reflexivity|].
  destruct (u <? 90); [reflexivity|]. cbv beta.
  match goal with |- context [if ?c then _ else _] => destruct c end; reflexivity.
Qed.

(** What lines 115-202 can do: return true from one of the tests, or reach
    the seasonal pick. *)
Lemma transitions_outcome (wd : WeatherData) (u : Z) (s0 s1 : Sys) :
  fst (run (transitions wd u s0) s1) = true \/
  exists s4,
    run (transitions wd u s0) s1 =
    run (pick_new_weather wd (season_of_yday (game_yday (world s0))) u
           (cur_type s0) (cur_intensity s0)) s4.
Proof.
  unfold run at 1 2. rewrite transitions_eq, get_fair_eq.
  remember (if (u <? 60) && f32_lt (cur_intensity s1) f_0_33333334
            then cleared s1 else s1) as s2 eqn:E. clear E.
  rewrite get_better_eq.
  destruct ((u <? 60) && not_fine (cur_type s2)); [left; reflexivity|].
  rewrite get_worse_eq.
  destruct ((u <? 90) && not_fine (cur_type s2)); [left; reflexivity|].
  rewrite radical_change_eq.
  destruct (not_fine (cur_type s2)); [|right; eexists; reflexivity].
  destruct (f32_lt (cur_intensity s2) f_0_33333334); [left; reflexivity|].
  destruct (f32_gt (cur_intensity s2) f_0_6666667); [|right; eexists; reflexivity].
  destruct (urand_value 0 99 (world s2) <? 50);
    [left; reflexivity|right; eexists; reflexivity].
Qed.

Lemma ReGenerate_false_inv (s : Sys) (wd : WeatherData) :
  m_weatherChances (self s) = Some wd ->
  fst (ReGenerate s) = false ->
  cur_type (snd (ReGenerate s)) = cur_type s /\
  same_intensity (cur_intensity (snd (ReGenerate s))) (cur_intensity s).
Proof.
  intros Hwd. rewrite (ReGenerate_some s wd Hwd).
  destruct (urand_value 0 99 (world s) <? 30).
  - intros _. split; [reflexivity|left; reflexivity].
  - destruct (transitions_outcome wd (urand_value 0 99 (world s)) s (after_draw s))
      as [Ht|(s4 & Hpick)].
    + intros Hf. congruence.
    + rewrite Hpick. intros Hf.
      pose proof (pick_new_weather_result wd (season_of_yday (game_yday (world s)))
                    (urand_value 0 99 (world s)) (cur_type s) (cur_intensity s) s4) as H.
      cbv zeta in H. rewrite Hf in H. symmetry in H.
      apply orb_false_iff in H. destruct H as [H1 H2].
      apply negb_false_iff in H1. apply WeatherType_eqb_eq in H1.
      unfold f32_ne in H2. apply negb_false_iff in H2.
      split; [exact H1|right; exact H2].
Qed.

(** X3. With a chance table, a ReGenerate that returns false has changed
    nothing one can observe: the type is the same and the intensity is the
    same value or compares equal to it, so the classified state is the same
    too. *)
Theorem ReGenerate_false_means_unchanged (s : Sys) (wd : WeatherData) :
  m_weatherChances (self s) = Some wd ->
  fst (ReGenerate s) = false ->
  cur_type (snd (ReGenerate s)) = cur_type s /\
  same_intensity (cur_intensity (snd (ReGenerate s))) (cur_intensity s) /\
  GetWeatherState (snd (ReGenerate s)) = GetWeatherState s.
Proof.
  intros Hwd Hf. destruct (ReGenerate_false_inv s wd Hwd Hf) as [Ht Hi].
  split; [exact Ht|]. split; [exact Hi|].
  unfold GetWeatherState. rewrite Ht. now apply Classify_same.
Qed.

(** X1. "Get better": with a chance table, a draw [u] in [30,59], a type
    other than Fine and an intensity that is not below 1/3, ReGenerate takes
    0.33333334 off the intensity and returns true; the type is unchanged and
    nothing else is drawn. *)
Theorem get_better_branch (s : Sys) (wd : WeatherData) :
  m_weatherChances (self s) = Some wd ->
  30 <= urand_value 0 99 (world s) <= 59 ->
  cur_type s <> WEATHER_TYPE_FINE ->
  f32_lt (cur_intensity s) f_0_33333334 = false ->
  ReGenerate s =
    (true, with_intensity (f32_sub (cur_intensity s) f_0_33333334) (after_draw s)).
Proof.
  intros Hwd Hu Ht Hi. rewrite (ReGenerate_some s wd Hwd).
  replace (urand_value 0 99 (world s) <? 30) with false by (symmetry; apply Z.ltb_ge; lia).
  unfold run. rewrite transitions_eq, get_fair_eq.
  replace (cur_intensity (after_draw s)) with (cur_intensity s) by reflexivity.
  rewrite Hi, andb_false_r, get_better_eq.
  replace (urand_value 0 99 (world s) <? 60) with true by (symmetry; apply Z.ltb_lt; lia).
  replace (cur_type (after_draw s)) with (cur_type s) by reflexivity.
  rewrite (not_fine_true _ Ht). reflexivity.
Qed.

(** X2. "Get worse": with a chance table, a draw [u] in [60,89] and a type
    other than Fine, ReGenerate adds 0.33333334 to the intensity, whatever
    it was, and returns true; the type is unchanged and nothing else is
    drawn. *)
Theorem get_worse_branch (s : Sys) (wd : WeatherData) :
  m_weatherChances (self s) = Some wd ->
  60 <= urand_value 0 99 (world s) <= 89 ->
  cur_type s <> WEATHER_TYPE_FINE ->
  ReGenerate s =
    (true, with_intensity (f32_add (cur_intensity s) f_0_33333334) (after_draw s)).
Proof.
  intros Hwd Hu Ht. rewrite (ReGenerate_some s wd Hwd).
  replace (urand_value 0 99 (world s) <? 30) with false by (symmetry; apply Z.ltb_ge; lia).
  unfold run. rewrite transitions_eq, get_fair_eq.
  replace (urand_value 0 99 (world s) <? 60) with false by (symmetry; apply Z.ltb_ge; lia).
  simpl andb. cbv iota. rewrite get_better_eq.
  replace (urand_value 0 99 (world s) <? 60) with false by (symmetry; apply Z.ltb_ge; lia).
  simpl andb. cbv iota. rewrite get_worse_eq.
  replace (urand_value 0 99 (world s) <? 90) with true by (symmetry; apply Z.ltb_lt; lia).
  replace (cur_type (after_draw s)) with (cur_type s) by reflexivity.
  rewrite (not_fine_true _ Ht). reflexivity.
Qed.

(** ** Fine weather is calm *)

Lemma not_fine_is (t : WeatherType) : not_fine t = true -> t <> WEATHER_TYPE_FINE.
Proof. destruct t; simpl; intros H E; discriminate. Qed.

Lemma fine_is_calm_self (s s' : Sys) :
  self s' = self s -> fine_is_calm s -> fine_is_calm s'.
Proof. unfold fine_is_calm, cur_type, cur_intensity. intros ->. auto. Qed.

Lemma fine_is_calm_active (i : float32) (s : Sys) :
  not_fine (cur_type s) = true -> fine_is_calm (with_intensity i s).
Proof. intros H Hf. apply not_fine_is in H. contradiction. Qed.

Lemma get_fair_calm (u : Z) : preserves fine_is_calm (get_fair u).
Proof.
  intros s H. rewrite get_fair_eq. simpl snd.
  destruct ((u <? 60) && f32_lt (cur_intensity s) f_0_33333334); [|exact H].
  intros _. reflexivity.
Qed.

Lemma get_better_calm (u : Z) : preserves fine_is_calm (get_better u).
Proof.
  intros s H. rewrite get_better_eq.
  destruct (u <? 60); simpl andb; [|exact H].
  destruct (not_fine (cur_type s)) eqn:E; [|exact H].
  now apply fine_is_calm_active.
Qed.

Lemma get_worse_calm (u : Z) : preserves fine_is_calm (get_worse u).
Proof.
  intros s H. rewrite get_worse_eq.
  destruct (u <? 90); simpl andb; [|exact H].
  destruct (not_fine (cur_type s)) eqn:E; [|exact H].
  now apply fine_is_calm_active.
Qed.

Lemma radical_change_calm : preserves fine_is_calm radical_change.
Proof.
  intros s H. rewrite radical_change_eq.
  destruct (not_fine (cur_type s)) eqn:E; [|exact H].
  destruct (f32_lt (cur_intensity s) f_0_33333334);
    [now apply fine_is_calm_active|].
  destruct (f32_gt (cur_intensity s) f_0_6666667); [|intros _; reflexivity].
  destruct (urand_value 0 99 (world s) <? 50); [|intros _; reflexivity].
  apply (fine_is_calm_active _ (with_rng_next s)). exact E.
Qed.

(** The seasonal pick leaves fine weather calm, from any state. *)
Lemma pick_new_weather_calm wd season u old_type old_intensity (s : Sys) :
  fine_is_calm (snd (pick_new_weather wd season u old_type old_intensity s)).
Proof.
  unfold pick_new_weather, bind, urand, rand_norm_f, modify, read, return_.
  cbv zeta.
  match goal with
  | |- context [with_type ?x (with_rng_next s)] => set (t := x)
  end.
  clearbody t. cbv beta iota.
  change (cur_type (with_type t (with_rng_next s))) with t.
  destruct (WeatherType_eqb t WEATHER_TYPE_FINE) eqn:E; [intros _; reflexivity|].
  assert (Ht : t <> WEATHER_TYPE_FINE)
    by (intros ->; discriminate E).
  destruct (u <? 90); [intros Hf; exact (False_ind _ (Ht Hf))|]. cbv beta.
  match goal with |- context [if ?c then _ else _] => destruct c end;
    intros Hf; exact (False_ind _ (Ht Hf)).
Qed.

Lemma transitions_calm (wd : WeatherData) (u : Z) (s0 : Sys) :
  preserves fine_is_calm (transitions wd u s0).
Proof.
  unfold transitions.
  apply preserves_bind; [apply get_fair_calm|intros _].
  apply preserves_bind; [apply get_better_calm|intros _].
  apply preserves_bind; [apply get_worse_calm|intros _].
  apply preserves_bind; [apply radical_change_calm|intros _].
  intros s _. apply pick_new_weather_calm.
Qed.

Lemma ReGenerate_calm (s : Sys) : fine_is_calm s -> fine_is_calm (snd (ReGenerate s)).
Proof.
  intros H. destruct (m_weatherChances (self s)) as [wd|] eqn:Hwd.
  - rewrite (ReGenerate_some s wd Hwd).
    destruct (urand_value 0 99 (world s) <? 30); [exact H|].
    apply preserves_run; [apply transitions_calm|exact H].
  - rewrite (ReGenerate_none s Hwd). intros _. reflexivity.
Qed.

Lemma clamp_intensity_zero : clamp_intensity f_zero = f_zero.
Proof. reflexivity. Qed.

Lemma UpdateWeather_self (ts : bool) (s : Sys) :
  self (snd (UpdateWeather ts s)) =
  self (with_intensity (clamp_intensity (cur_intensity s)) s).
Proof. pose proof (UpdateWeather_spec ts s) as H. cbv zeta in H. apply H. Qed.

Lemma UpdateWeather_calm (ts : bool) (s : Sys) :
  fine_is_calm s -> fine_is_calm (snd (UpdateWeather ts s)).
Proof.
  intros H. unfold fine_is_calm, cur_type, cur_intensity.
  rewrite UpdateWeather_self. simpl. intros Hf.
  unfold fine_is_calm, cur_type in H. rewrite (H Hf). reflexivity.
Qed.

Lemma notify_update_self (diff : Z) (s : Sys) : self (notify_update diff s) = self s.
Proof. reflexivity. Qed.

Lemma Update_calm (diff : Z) (s : Sys) :
  fine_is_calm s -> fine_is_calm (snd (Update diff s)).
Proof.
  intros H. rewrite Update_eq. cbv zeta.
  destruct (IntervalTimer_Passed (cur_timer (tick_timer diff s))); [|exact H].
  set (r := ReGenerate _).
  assert (Hr : fine_is_calm (snd r)) by (apply ReGenerate_calm; exact H).
  destruct (fst r); [|exact Hr].
  pose proof (UpdateWeather_calm true (snd r) Hr) as Hu.
  fold UpdateWeather_default in Hu.
  destruct (fst (UpdateWeather_default (snd r))); exact Hu.
Qed.

(** X4. Fine weather is calm, and ticks keep it so: if type Fine goes with
    intensity exactly 0 before a ReGenerate or a tick, it does afterwards,
    on every path; a newly constructed object is Fine at 0, so it stays calm
    through any sequence of ticks. *)
Theorem ticks_keep_fine_weather_calm :
  (forall s, fine_is_calm s -> fine_is_calm (snd (ReGenerate s))) /\
  (forall diff s, fine_is_calm s -> fine_is_calm (snd (Update diff s))) /\
  (forall diffs s, fine_is_calm s -> fine_is_calm (snd (run_ticks diffs s))) /\
  (forall zone chances timer0 interval w diffs,
     fine_is_calm
       (snd (run_ticks diffs
               {| self := Weather_new zone chances timer0 interval; world := w |}))).
Proof.
  assert (Hticks : forall diffs s,
             fine_is_calm s -> fine_is_calm (snd (run_ticks diffs s))).
  { induction diffs as [|d rest IH]; intros s H; [exact H|].
    simpl. pose proof (Update_calm d s H) as Hd.
    destruct (Update d s) as [[|] s']; simpl in *; auto. }
  split; [exact ReGenerate_calm|]. split; [exact Update_calm|].
  split; [exact Hticks|].
  intros. apply Hticks. intros _. reflexivity.
Qed.

Lemma ticks_keep_fine_weather_calm_witness :
  fine_is_calm sample_fine /\
  fine_is_calm (snd (run_ticks [1; 1] sample_fine)).
Proof.
  assert (H : fine_is_calm sample_fine) by (intros _; reflexivity).
  split; [exact H|].
  destruct ticks_keep_fine_weather_calm as (_ & _ & Hticks & _).
  exact (Hticks [1; 1] sample_fine H).
Defined.

(** ** The clamp and the classification *)

Lemma thresholds_below_one :
  f32_lt f_0_27 f_one = true /\ f32_lt f_0_40 f_one = true /\
  f32_lt f_0_70 f_one = true /\ f32_lt f_zero f_0_27 = true.
Proof. vm_compute. auto. Qed.

Lemma Classify_clamp (t : WeatherType) (i : float32) :
  Classify t (clamp_intensity i) = Classify t i.
Proof.
  destruct thresholds_below_one as (H27 & H40 & H70 & H0).
  unfold clamp_intensity.
  destruct (f32_ge i f_one) eqn:Hge.
  - unfold Classify at 2.
    rewrite (above_threshold_not_below _ _ _ H27 Hge),
            (above_threshold_not_below _ _ _ H40 Hge),
            (above_threshold_not_below _ _ _ H70 Hge).
    destruct t; reflexivity.
  - destruct (f32_lt i f_zero) eqn:Hlt; [|reflexivity].
    unfold Classify at 2. rewrite (f32_lt_trans _ _ _ Hlt H0). reflexivity.
Qed.

(** X8. The clamp of lines 223-226 never changes the classification: the
    state of the clamped intensity is the state of the stored one, so the
    zone message of UpdateWeather carries the state the object had before
    the call, and the object classifies the same afterwards. *)
Theorem clamp_keeps_the_state (triggerScripts : bool) (s : Sys) :
  (forall t i, Classify t (clamp_intensity i) = Classify t i) /\
  broadcasts (events_since s (snd (UpdateWeather triggerScripts s))) =
    [SendZoneMessage (cur_zone s) (GetWeatherState s)
       (clamp_intensity (cur_intensity s))] /\
  GetWeatherState (snd (UpdateWeather triggerScripts s)) = GetWeatherState s.
Proof.
  split; [exact Classify_clamp|].
  pose proof (UpdateWeather_spec triggerScripts s) as H. cbv zeta in H.
  destruct H as (_ & Hself & Hev). split.
  - rewrite (events_since_app _ _ _ Hev), Classify_clamp.
    unfold UpdateWeather_events, broadcasts, GetWeatherState.
    destruct (zone_has_players (world s)), triggerScripts; reflexivity.
  - unfold GetWeatherState, cur_type, cur_intensity. rewrite Hself. simpl.
    apply Classify_clamp.
Qed.

(** X9. After [SetWeather(type, intensity, ..)], whether it wrote or found
    nothing to do, the object has the requested type and classifies as the
    requested type and intensity do. *)
Theorem SetWeather_installs_the_state
    (type : WeatherType) (intensity : float32) (ts : bool) (s : Sys) :
  cur_type (snd (SetWeather type intensity ts s)) = type /\
  GetWeatherState (snd (SetWeather type intensity ts s)) = Classify type intensity.
Proof.
  rewrite SetWeather_eq.
  destruct (WeatherType_eqb (cur_type s) type && f32_eq (cur_intensity s) intensity)
    eqn:E; simpl snd.
  - apply andb_true_iff in E. destruct E as [Et Ei].
    apply WeatherType_eqb_eq in Et. split; [exact Et|].
    unfold GetWeatherState. rewrite Et. apply Classify_same. right. exact Ei.
  - unfold GetWeatherState, cur_type, cur_intensity. rewrite UpdateWeather_self. simpl.
    split; [reflexivity|apply Classify_clamp].
Qed.

(** X13. A player synchronised right after a broadcast gets what the zone
    got: the packet of SendWeatherUpdateToPlayer carries the state and the
    intensity of the zone message UpdateWeather has just sent. *)
Theorem player_sync_repeats_the_broadcast (triggerScripts : bool) (s : Sys) :
  let s' := snd (UpdateWeather triggerScripts s) in
  exists state intensity,
    broadcasts (events_since s s') = [SendZoneMessage (cur_zone s) state intensity] /\
    SendWeatherUpdateToPlayer s' =
      {| packet_state := state; packet_intensity := Some intensity |}.
Proof.
  cbv zeta. pose proof (UpdateWeather_spec triggerScripts s) as H. cbv zeta in H.
  destruct H as (_ & Hself & Hev).
  exists (Classify (cur_type s) (clamp_intensity (cur_intensity s))),
         (clamp_intensity (cur_intensity s)).
  split.
  - rewrite (events_since_app _ _ _ Hev).
    unfold UpdateWeather_events, broadcasts.
    destruct (zone_has_players (world s)), triggerScripts; reflexivity.
  - unfold SendWeatherUpdateToPlayer, GetWeatherState, cur_type, cur_intensity.
    rewrite Hself. reflexivity.
Qed.

(** ** What a tick sends *)

(** X10. A tick sends at most one zone message, and sends it exactly when
    the timer fired and ReGenerate reported a change; a tick whose timer
    does not fire answers true, draws nothing, writes nothing but the timer
    and only notifies the script collaborator. *)
Theorem tick_sends_at_most_one_message (diff : Z) (s : Sys) :
  let s3 := snd (regenerated diff s) in
  broadcasts (events_since s (snd (Update diff s))) =
    (if timer_fires diff s && fst (regenerated diff s)
     then [SendZoneMessage (cur_zone s) (GetWeatherState s3)
             (clamp_intensity (cur_intensity s3))]
     else []) /\
  (timer_fires diff s = false ->
     Update diff s = (true, notify_update diff (tick_timer diff s)) /\
     cur_type (snd (Update diff s)) = cur_type s /\
     cur_intensity (snd (Update diff s)) = cur_intensity s /\
     rng_pos (world (snd (Update diff s))) = rng_pos (world s) /\
     events_since s (snd (Update diff s)) = [OnWeatherUpdate diff; FireOnWeatherUpdate]).
Proof.
  cbv zeta. split.
  - pose proof (Update_trace diff s) as H. cbv zeta in H.
    destruct H as (logs & Hshape & _ & _ & Hev).
    rewrite (events_since_app _ _ _ Hev), !broadcasts_app.
    assert (Hl : broadcasts logs = [])
      by (destruct Hshape as [->|(n & z & ->)]; reflexivity).
    rewrite Hl. simpl app.
    assert (Hn : broadcasts (if fst (Update diff s)
                             then [OnWeatherUpdate diff; FireOnWeatherUpdate] else []) = [])
      by (destruct (fst (Update diff s)); reflexivity).
    rewrite Hn, app_nil_r.
    destruct (timer_fires diff s && fst (regenerated diff s)); [|reflexivity].
    rewrite Classify_clamp. unfold UpdateWeather_events, broadcasts, GetWeatherState.
    destruct (zone_has_players (world s)); reflexivity.
  - intros Hf.
    assert (E : Update diff s = (true, notify_update diff (tick_timer diff s))).
    { rewrite Update_eq. cbv zeta. fold (timer_fires diff s). now rewrite Hf. }
    rewrite E. split; [reflexivity|]. split; [reflexivity|]. split; [reflexivity|].
    split; [reflexivity|]. apply events_since_app. simpl snd.
    unfold notify_update. now rewrite with_events_events.
Qed.

Lemma tick_sends_at_most_one_message_witness :
  timer_fires 0 sample_busy = false /\
  events_since sample_busy (snd (Update 0 sample_busy)) =
    [OnWeatherUpdate 0; FireOnWeatherUpdate] /\
  broadcasts (events_since sample_busy (snd (Update 1 sample_busy))) =
    [SendZoneMessage 1 WEATHER_STATE_FINE f_zero].
Proof.
  assert (H0 : timer_fires 0 sample_busy = false) by reflexivity.
  split; [exact H0|].
  pose proof (tick_sends_at_most_one_message 0 sample_busy) as Hq.
  pose proof (tick_sends_at_most_one_message 1 sample_busy) as Hf.
  cbv zeta in Hq, Hf. destruct Hq as (_ & Hq). destruct Hf as (Hf & _).
  split; [apply (Hq H0)|]. rewrite Hf. reflexivity.
Defined.

(** ** The log of a broadcast *)

Lemma Classify_never_fog (t : WeatherType) (i : float32) :
  Classify t i <> WEATHER_STATE_FOG.
Proof.
  unfold Classify.
  destruct (f32_lt i f_0_27); [discriminate|].
  destruct t, (f32_lt i f_0_40), (f32_lt i f_0_70); discriminate.
Qed.

Lemma wthstr_of_fog (state : WeatherState) :
  wthstr_of state = "fog"%string -> state = WEATHER_STATE_FOG.
Proof. destruct state; simpl; intros H; try discriminate H; reflexivity. Qed.

(** X11. The "fog" arm of the switch in UpdateWeather is dead: the
    classifier never answers fog, so no broadcast logs "fog"; and when the
    zone has players the log line names the state the message carried,
    before the script is told of the same state and intensity. *)
Theorem UpdateWeather_never_logs_fog (triggerScripts : bool) (s : Sys) :
  let s' := snd (UpdateWeather triggerScripts s) in
  let c := clamp_intensity (cur_intensity s) in
  (forall t i, Classify t i <> WEATHER_STATE_FOG) /\
  (forall zone, ~ In (LogChange zone "fog") (events_since s s')) /\
  (zone_has_players (world s) = true ->
     fst (UpdateWeather triggerScripts s) = true /\
     events_since s s' =
       SendZoneMessage (cur_zone s) (GetWeatherState s) c ::
       LogChange (cur_zone s) (wthstr_of (GetWeatherState s)) ::
       OnWeatherChange (GetWeatherState s) c ::
       (if triggerScripts then [FireOnWeatherChange] else [])) /\
  (zone_has_players (world s) = false ->
     fst (UpdateWeather triggerScripts s) = false /\
     events_since s s' = [SendZoneMessage (cur_zone s) (GetWeatherState s) c]).
Proof.
  cbv zeta. pose proof (UpdateWeather_spec triggerScripts s) as H. cbv zeta in H.
  destruct H as (Hfst & _ & Hev). apply events_since_app in Hev.
  rewrite Hev, Hfst, Classify_clamp. fold (GetWeatherState s).
  split; [exact Classify_never_fog|]. split; [|split].
  - intros zone Hin. unfold UpdateWeather_events in Hin.
    assert (Hfog : GetWeatherState s <> WEATHER_STATE_FOG) by apply Classify_never_fog.
    destruct (zone_has_players (world s)).
    + destruct Hin as [Hin|[Hin|[Hin|Hin]]]; try discriminate Hin.
      * injection Hin as _ Hs. apply Hfog, wthstr_of_fog, Hs.
      * destruct triggerScripts; [destruct Hin as [Hin|[]]; discriminate Hin|destruct Hin].
    + destruct Hin as [Hin|[]]. discriminate Hin.
  - intros ->. split; reflexivity.
  - intros ->. split; reflexivity.
Qed.

Lemma UpdateWeather_never_logs_fog_witness :
  zone_has_players (world sample_busy) = true /\
  zone_has_players (world sample_deserted) = false /\
  fst (UpdateWeather true sample_busy) = true /\
  events_since sample_deserted (snd (UpdateWeather true sample_deserted)) =
    [SendZoneMessage 1 WEATHER_STATE_LIGHT_RAIN f_0_33333334].
Proof.
  assert (H1 : zone_has_players (world sample_busy) = true) by reflexivity.
  assert (H2 : zone_has_players (world sample_deserted) = false) by reflexivity.
  split; [exact H1|]. split; [exact H2|].
  pose proof (UpdateWeather_never_logs_fog true sample_busy) as Hb.
  pose proof (UpdateWeather_never_logs_fog true sample_deserted) as Hd.
  cbv zeta in Hb, Hd.
  destruct Hb as (_ & _ & Hb & _). destruct Hd as (_ & _ & _ & Hd).
  split; [apply (Hb H1)|]. destruct (Hd H2) as [_ ->]. reflexivity.
Defined.

(** ** No message out of range *)

Lemma clamp_in_send_range (i : float32) : in_send_range (clamp_intensity i) = true.
Proof.
  unfold in_send_range. destruct (clamp_intensity_range i) as [-> ->]. reflexivity.
Qed.

Lemma UpdateWeather_zone_messages (ts found : bool) (zone : Z) (st : WeatherState)
    (i : float32) :
  forallb zone_message_in_range
    (UpdateWeather_events ts found zone st (clamp_intensity i)) = true.
Proof.
  unfold UpdateWeather_events. simpl. rewrite clamp_in_send_range.
  destruct found, ts; reflexivity.
Qed.

Lemma Update_in_range (diff : Z) (s : Sys) :
  in_send_range (cur_intensity s) = true ->
  in_send_range (cur_intensity (snd (Update diff s))) = true.
Proof.
  intros H. rewrite Update_eq. cbv zeta.
  destruct (IntervalTimer_Passed (cur_timer (tick_timer diff s))); [|exact H].
  set (s2 := with_timer _ (tick_timer diff s)).
  assert (Hr : fst (ReGenerate s2) = false ->
               in_send_range (cur_intensity (snd (ReGenerate s2))) = true).
  { intros Hf. destruct (m_weatherChances (self s2)) as [wd|] eqn:Hwd.
    - destruct (ReGenerate_false_inv s2 wd Hwd Hf) as [_ Hi].
      rewrite (in_send_range_same _ _ Hi). exact H.
    - rewrite (ReGenerate_none s2 Hwd). reflexivity. }
  destruct (fst (ReGenerate s2)) eqn:Hch; [|simpl snd; auto].
  assert (Hu : in_send_range
                 (cur_intensity (snd (UpdateWeather_default (snd (ReGenerate s2))))) = true).
  { unfold cur_intensity, UpdateWeather_default. rewrite UpdateWeather_self. simpl.
    apply clamp_in_send_range. }
  destruct (fst (UpdateWeather_default (snd (ReGenerate s2)))); exact Hu.
Qed.

Lemma Update_zone_messages (diff : Z) (s : Sys) :
  exists new,
    events (world (snd (Update diff s))) = events (world s) ++ new /\
    forallb zone_message_in_range new = true.
Proof.
  pose proof (Update_trace diff s) as H. cbv zeta in H.
  destruct H as (logs & Hshape & _ & _ & Hev).
  eexists. split; [exact Hev|].
  rewrite !forallb_app.
  assert (Hl : forallb zone_message_in_range logs = true)
    by (destruct Hshape as [->|(n & z & ->)]; reflexivity).
  rewrite Hl. simpl andb. apply andb_true_iff. split.
  - destruct (timer_fires diff s && fst (regenerated diff s)); [|reflexivity].
    apply UpdateWeather_zone_messages.
  - destruct (fst (Update diff s)); reflexivity.
Qed.

Lemma SetWeather_in_range (t : WeatherType) (i : float32) (ts : bool) (s : Sys) :
  in_send_range (cur_intensity s) = true ->
  in_send_range (cur_intensity (snd (SetWeather t i ts s))) = true.
Proof.
  intros H. rewrite SetWeather_eq.
  destruct (WeatherType_eqb (cur_type s) t && f32_eq (cur_intensity s) i); [exact H|].
  simpl snd. unfold cur_intensity. rewrite UpdateWeather_self. simpl.
  apply clamp_in_send_range.
Qed.

Lemma SetWeather_zone_messages (t : WeatherType) (i : float32) (ts : bool) (s : Sys) :
  exists new,
    events (world (snd (SetWeather t i ts s))) = events (world s) ++ new /\
    forallb zone_message_in_range new = true.
Proof.
  rewrite SetWeather_eq.
  destruct (WeatherType_eqb (cur_type s) t && f32_eq (cur_intensity s) i).
  - exists []. simpl. now rewrite app_nil_r.
  - pose proof (UpdateWeather_spec ts (with_intensity i (with_type t s))) as H.
    cbv zeta in H. destruct H as (_ & _ & Hev).
    eexists. split; [exact Hev|]. apply UpdateWeather_zone_messages.
Qed.

Lemma run_calls_in_range (calls : list Call) :
  forall s sent,
    in_send_range (cur_intensity s) = true ->
    forallb packet_in_range sent = true ->
    in_send_range (cur_intensity (fst (run_calls calls s sent))) = true /\
    forallb packet_in_range (snd (run_calls calls s sent)) = true /\
    exists new,
      events (world (fst (run_calls calls s sent))) = events (world s) ++ new /\
      forallb zone_message_in_range new = true.
Proof.
  induction calls as [|c rest IH]; intros s sent Hs Hsent.
  - simpl. split; [exact Hs|]. split; [exact Hsent|].
    exists []. now rewrite app_nil_r.
  - destruct c as [diff|t i ts|player|player|found yday n]; simpl.
    + pose proof (Update_in_range diff s Hs) as Hi.
      destruct (Update_zone_messages diff s) as (new & Hev & Hok).
      destruct (Update diff s) as [[|] s']; simpl in Hi, Hev.
      * destruct (IH s' sent Hi Hsent) as (H1 & H2 & new' & Hev' & Hok').
        split; [exact H1|]. split; [exact H2|].
        exists (new ++ new'). rewrite Hev', Hev, <- app_assoc. split; [reflexivity|].
        now rewrite forallb_app, Hok, Hok'.
      * simpl. split; [exact Hi|]. split; [exact Hsent|]. now exists new.
    + pose proof (SetWeather_in_range t i ts s Hs) as Hi.
      destruct (SetWeather_zone_messages t i ts s) as (new & Hev & Hok).
      destruct (IH _ sent Hi Hsent) as (H1 & H2 & new' & Hev' & Hok').
      split; [exact H1|]. split; [exact H2|].
      exists (new ++ new'). rewrite Hev', Hev, <- app_assoc. split; [reflexivity|].
      now rewrite forallb_app, Hok, Hok'.
    + apply IH; [exact Hs|].
      rewrite forallb_app, Hsent. simpl. unfold packet_in_range. simpl.
      now rewrite Hs.
    + apply IH; [exact Hs|].
      rewrite forallb_app, Hsent. reflexivity.
    + apply (IH (with_surroundings found yday n s) sent Hs Hsent).
Qed.

(** X12. No message leaves the range of the clamp.  Take an object whose
    stored intensity is neither [>= 1] nor [< 0], as a newly constructed one
    is, and call Update, SetWeather and the two player synchronisations in
    any order while players come and go: the stored intensity stays in that
    range, and so does the intensity of every zone message and of every
    packet sent to a single player, although the latter is not clamped. *)
Theorem no_message_out_of_range (calls : list Call) :
  (forall s,
     in_send_range (cur_intensity s) = true ->
     in_send_range (cur_intensity (fst (run_calls calls s []))) = true /\
     forallb packet_in_range (snd (run_calls calls s [])) = true /\
     forallb zone_message_in_range (events_since s (fst (run_calls calls s []))) = true) /\
  (forall zone chances timer0 interval w,
     let s := {| self := Weather_new zone chances timer0 interval; world := w |} in
     in_send_range (cur_intensity (fst (run_calls calls s []))) = true /\
     forallb packet_in_range (snd (run_calls calls s [])) = true /\
     forallb zone_message_in_range (events_since s (fst (run_calls calls s []))) = true).
Proof.
  assert (H : forall s,
             in_send_range (cur_intensity s) = true ->
             in_send_range (cur_intensity (fst (run_calls calls s []))) = true /\
             forallb packet_in_range (snd (run_calls calls s [])) = true /\
             forallb zone_message_in_range
               (events_since s (fst (run_calls calls s []))) = true).
  { intros s Hs.
    destruct (run_calls_in_range calls s [] Hs eq_refl) as (H1 & H2 & new & Hev & Hok).
    split; [exact H1|]. split; [exact H2|].
    now rewrite (events_since_app _ _ _ Hev). }
  split; [exact H|]. intros zone chances timer0 interval w. cbv zeta.
  apply H. reflexivity.
Qed.

Lemma no_message_out_of_range_witness :
  in_send_range (cur_intensity sample_busy) = true /\
  snd (run_calls
         [CallSetWeather WEATHER_TYPE_RAIN f_2 true;
          CallSendWeatherUpdateToPlayer 7;
          CallSendFineWeatherUpdateToPlayer 8]
         sample_busy []) =
    [(7, {| packet_state := WEATHER_STATE_HEAVY_RAIN;
            packet_intensity := Some f_0_9999 |});
     (8, {| packet_state := WEATHER_STATE_FINE; packet_intensity := None |})] /\
  forallb packet_in_range
    (snd (run_calls
            [CallSetWeather WEATHER_TYPE_RAIN f_2 true;
             CallSendWeatherUpdateToPlayer 7;
             CallSendFineWeatherUpdateToPlayer 8]
            sample_busy [])) = true.
Proof.
  assert (H0 : in_send_range (cur_intensity sample_busy) = true) by reflexivity.
  split; [exact H0|]. split; [reflexivity|].
  apply (proj1 (no_message_out_of_range
                  [CallSetWeather WEATHER_TYPE_RAIN f_2 true;
                   CallSendWeatherUpdateToPlayer 7;
                   CallSendFineWeatherUpdateToPlayer 8]) sample_busy H0).
Defined.

(** ** The seasonal pick *)

Lemma snd_run {R} (m : Stmt R R) (s : Sys) : snd (run m s) = snd (m s).
Proof. unfold run. destruct (m s) as [[r|r] s']; reflexivity. Qed.

(** From type Fine every draw from 30 on leads to the seasonal pick. *)
Lemma ReGenerate_from_fine (s : Sys) (wd : WeatherData) :
  m_weatherChances (self s) = Some wd ->
  30 <= urand_value 0 99 (world s) ->
  cur_type s = WEATHER_TYPE_FINE ->
  exists s2,
    ReGenerate s =
      run (pick_new_weather wd (season_of_yday (game_yday (world s)))
             (urand_value 0 99 (world s)) (cur_type s) (cur_intensity s)) s2 /\
    world s2 = world (after_draw s).
Proof.
  intros Hwd Hu Ht. rewrite (ReGenerate_some s wd Hwd).
  replace (urand_value 0 99 (world s) <? 30) with false by (symmetry; apply Z.ltb_ge; lia).
  set (u := urand_value 0 99 (world s)).
  set (c := (u <? 60) && f32_lt (cur_intensity (after_draw s)) f_0_33333334).
  set (s2 := if c then cleared (after_draw s) else after_draw s).
  exists s2.
  split; [|subst s2; destruct c; reflexivity].
  unfold run at 1. rewrite transitions_eq, get_fair_eq. fold c. fold s2.
  assert (Hf : not_fine (cur_type s2) = false).
  { subst s2. destruct c; [reflexivity|].
    change (cur_type (after_draw s)) with (cur_type s). now rewrite Ht. }
  rewrite get_better_eq, Hf, andb_false_r.
  rewrite get_worse_eq, Hf, andb_false_r.
  rewrite radical_change_eq, Hf. reflexivity.
Qed.

Lemma pick_new_weather_type wd season u old_type old_intensity (s : Sys) :
  cur_type (snd (pick_new_weather wd season u old_type old_intensity s)) =
  picked_type (data_at wd season) (urand_value 1 100 (world s)).
Proof.
  unfold pick_new_weather, picked_type, bind, urand, rand_norm_f, modify, read, return_.
  cbv zeta.
  match goal with
  | |- context [with_type ?x (with_rng_next s)] => set (t := x)
  end.
  cbv beta iota.
  destruct (WeatherType_eqb (cur_type (with_type t (with_rng_next s))) WEATHER_TYPE_FINE);
    [reflexivity|].
  destruct (u <? 90); [reflexivity|]. cbv beta.
  match goal with |- context [if ?c then _ else _] => destruct c end; reflexivity.
Qed.

(** The intensity the pick installs, by the tests of lines 183-199; the
    draws are read where the random source stands after the pick of the
    type. *)
Lemma pick_new_weather_intensity wd season u old_type old_intensity (s : Sys) :
  let w1 := world (with_rng_next s) in
  let w2 := world (with_rng_next (with_rng_next s)) in
  cur_intensity (snd (pick_new_weather wd season u old_type old_intensity s)) =
    if WeatherType_eqb
         (picked_type (data_at wd season) (urand_value 1 100 (world s))) WEATHER_TYPE_FINE
    then f_zero
    else if u <? 90 then f32_mul (norm_tape w1 (rng_pos w1)) f_0_3333
    else if urand_value 0 99 w1 <? 50
         then f32_add (f32_mul (norm_tape w2 (rng_pos w2)) f_0_3333) f_0_3334
         else f32_add (f32_mul (norm_tape w2 (rng_pos w2)) f_0_3333) f_0_6667.
Proof.
  cbv zeta.
  unfold pick_new_weather, picked_type, bind, urand, rand_norm_f, modify, read, return_.
  cbv zeta.
  match goal with
  | |- context [with_type ?x (with_rng_next s)] => set (t := x)
  end.
  cbv beta iota.
  change (cur_type (with_type t (with_rng_next s))) with t.
  destruct (WeatherType_eqb t WEATHER_TYPE_FINE); [reflexivity|].
  destruct (u <? 90); [reflexivity|]. cbv beta.
  change (world (with_rng_next (with_type t (with_rng_next s))))
    with (world (with_rng_next (with_rng_next s))).
  change (world (with_type t (with_rng_next s))) with (world (with_rng_next s)).
  destruct (urand_value 0 99 (world (with_rng_next s)) <? 50); reflexivity.
Qed.

Lemma u32_small (x : Z) : 0 <= x <= 100 -> u32 x = x.
Proof. intros H. unfold u32. apply Z.mod_small. lia. Qed.

(** The thresholds of a well-formed row. *)
Lemma picked_type_cases (row : WeatherSeasonChances) (rnd : Z) :
  well_formed_row row ->
  picked_type row rnd =
    if rnd <=? rainChance row then WEATHER_TYPE_RAIN
    else if rnd <=? rainChance row + snowChance row then WEATHER_TYPE_SNOW
    else if rnd <=? rainChance row + snowChance row + stormChance row
         then WEATHER_TYPE_STORM
    else WEATHER_TYPE_FINE.
Proof.
  intros (Hr & Hs & Ht & Hsum). unfold picked_type. cbv zeta.
  rewrite (u32_small (rainChance row + snowChance row)) by lia.
  rewrite (u32_small (rainChance row + snowChance row + stormChance row)) by lia.
  reflexivity.
Qed.

(** X5. From type Fine, with a chance table whose row for the season is
    well formed, every draw [u] from 30 on ends in the seasonal pick: the
    next draw [rnd] in [1,100] gives Rain up to the rain chance, Snow up to
    rain + snow, Storm up to rain + snow + storm, Fine above; Fine gets
    intensity 0, another type gets norm * 0.3333 for [u < 90] and, for
    [u >= 90], norm * 0.3333 + 0.3334 or + 0.6667 as one more draw is below
    50 or not; the value returned tells whether type or intensity differ
    from the old ones. *)
Theorem seasonal_pick_from_fine (s : Sys) (wd : WeatherData) :
  m_weatherChances (self s) = Some wd ->
  30 <= urand_value 0 99 (world s) ->
  cur_type s = WEATHER_TYPE_FINE ->
  well_formed_row (data_at wd (season_of_yday (game_yday (world s)))) ->
  let row := data_at wd (season_of_yday (game_yday (world s))) in
  let u := urand_value 0 99 (world s) in
  let rnd := urand_value 1 100 (world (with_rng_next s)) in
  let w2 := world (with_rng_next (with_rng_next s)) in
  let w3 := world (with_rng_next (with_rng_next (with_rng_next s))) in
  let t' := cur_type (snd (ReGenerate s)) in
  let i' := cur_intensity (snd (ReGenerate s)) in
  t' = (if rnd <=? rainChance row then WEATHER_TYPE_RAIN
        else if rnd <=? rainChance row + snowChance row then WEATHER_TYPE_SNOW
        else if rnd <=? rainChance row + snowChance row + stormChance row
             then WEATHER_TYPE_STORM
        else WEATHER_TYPE_FINE) /\
  i' = (if WeatherType_eqb t' WEATHER_TYPE_FINE then f_zero
        else if u <? 90 then f32_mul (norm_tape w2 (rng_pos w2)) f_0_3333
        else if urand_value 0 99 w2 <? 50
             then f32_add (f32_mul (norm_tape w3 (rng_pos w3)) f_0_3333) f_0_3334
             else f32_add (f32_mul (norm_tape w3 (rng_pos w3)) f_0_3333) f_0_6667) /\
  fst (ReGenerate s) = not_fine t' || f32_ne i' (cur_intensity s).
Proof.
  intros Hwd Hu Ht Hrow. cbv zeta.
  destruct (ReGenerate_from_fine s wd Hwd Hu Ht) as (s2 & HR & Hw).
  rewrite HR.
  pose proof (pick_new_weather_result wd (season_of_yday (game_yday (world s)))
                (urand_value 0 99 (world s)) (cur_type s) (cur_intensity s) s2) as Hres.
  cbv zeta in Hres. rewrite Hres, Ht. clear Hres.
  rewrite snd_run.
  pose proof (pick_new_weather_type wd (season_of_yday (game_yday (world s)))
                (urand_value 0 99 (world s)) WEATHER_TYPE_FINE (cur_intensity s) s2) as Hty.
  pose proof (pick_new_weather_intensity wd (season_of_yday (game_yday (world s)))
                (urand_value 0 99 (world s)) WEATHER_TYPE_FINE (cur_intensity s) s2) as Hin.
  cbv zeta in Hin.
  unfold with_rng_next in Hin; simpl world in Hin. rewrite Hw in Hty, Hin.
  rewrite (picked_type_cases _ _ Hrow) in Hty, Hin.
  split; [exact Hty|]. split; [|reflexivity].
  rewrite Hin, Hty. reflexivity.
Qed.

Lemma seasonal_pick_from_fine_witness :
  m_weatherChances (self (with_draws 95 60 sample_fine)) = Some sample_chances /\
  30 <= urand_value 0 99 (world (with_draws 95 60 sample_fine)) /\
  well_formed_row sample_row /\
  cur_type (snd (ReGenerate (with_draws 95 60 sample_fine))) = WEATHER_TYPE_SNOW /\
  cur_intensity (snd (ReGenerate (with_draws 95 60 sample_fine))) =
    f32_add (f32_mul f_0_5 f_0_3333) f_0_6667.
Proof.
  assert (H1 : m_weatherChances (self (with_draws 95 60 sample_fine))
               = Some sample_chances) by reflexivity.
  assert (H2 : 30 <= urand_value 0 99 (world (with_draws 95 60 sample_fine)))
    by (vm_compute; discriminate).
  assert (H3 : cur_type (with_draws 95 60 sample_fine) = WEATHER_TYPE_FINE)
    by reflexivity.
  assert (H4 : well_formed_row sample_row) by (unfold well_formed_row; simpl; lia).
  pose proof (seasonal_pick_from_fine _ _ H1 H2 H3 H4) as H. cbv zeta in H.
  destruct H as (Ht & Hi & _).
  split; [exact H1|]. split; [exact H2|]. split; [exact H4|].
  split; [rewrite Ht; reflexivity|]. rewrite Hi, Ht. reflexivity.
Defined.

(** X7. In a zone that is Fine at intensity 0, with a chance table,
    ReGenerate reports a change exactly when weather starts: it returns
    true if and only if the type it leaves is not Fine. *)
Theorem calm_zone_reports_weather_starting (s : Sys) (wd : WeatherData) :
  m_weatherChances (self s) = Some wd ->
  cur_type s = WEATHER_TYPE_FINE ->
  cur_intensity s = f_zero ->
  fst (ReGenerate s) = not_fine (cur_type (snd (ReGenerate s))).
Proof.
  intros Hwd Ht Hi.
  destruct (urand_value 0 99 (world s) <? 30) eqn:Hu.
  - rewrite (ReGenerate_some s wd Hwd), Hu.
    change (false = not_fine (cur_type s)). now rewrite Ht.
  - apply Z.ltb_ge in Hu.
    destruct (ReGenerate_from_fine s wd Hwd Hu Ht) as (s2 & HR & _). rewrite HR.
    pose proof (pick_new_weather_result wd (season_of_yday (game_yday (world s)))
                  (urand_value 0 99 (world s)) (cur_type s) (cur_intensity s) s2) as Hres.
    cbv zeta in Hres. rewrite Hres, Ht, Hi. clear Hres.
    rewrite snd_run.
    pose proof (pick_new_weather_calm wd (season_of_yday (game_yday (world s)))
                  (urand_value 0 99 (world s)) WEATHER_TYPE_FINE f_zero s2) as Hcalm.
    fold (not_fine (cur_type (snd (pick_new_weather wd
            (season_of_yday (game_yday (world s))) (urand_value 0 99 (world s))
            WEATHER_TYPE_FINE f_zero s2)))).
    destruct (not_fine _) eqn:Hnf; [reflexivity|].
    unfold not_fine in Hnf. apply negb_false_iff, WeatherType_eqb_eq in Hnf.
    rewrite (Hcalm Hnf). reflexivity.
Qed.

Lemma calm_zone_reports_weather_starting_witness :
  m_weatherChances (self (with_draws 95 60 sample_fine)) = Some sample_chances /\
  cur_type (with_draws 95 60 sample_fine) = WEATHER_TYPE_FINE /\
  cur_intensity (with_draws 95 60 sample_fine) = f_zero /\
  fst (ReGenerate (with_draws 95 60 sample_fine)) = true /\
  fst (ReGenerate (with_draws 95 95 sample_fine)) = false.
Proof.
  split; [reflexivity|]. split; [reflexivity|]. split; [reflexivity|]. split.
  - rewrite (calm_zone_reports_weather_starting (with_draws 95 60 sample_fine)
               sample_chances eq_refl eq_refl eq_refl).
    reflexivity.
  - rewrite (calm_zone_reports_weather_starting (with_draws 95 95 sample_fine)
               sample_chances eq_refl eq_refl eq_refl).
    reflexivity.
Defined.

(** ** The chances of the table are the chances of the pick *)

Lemma count_interval (n : nat) (a b : Z) :
  0 <= a <= b ->
  List.length
    (filter (fun raw => (a <? raw + 1) && (raw + 1 <=? b)) (map Z.of_nat (seq 0 n))) =
  Z.to_nat (Z.min b (Z.of_nat n) - Z.min a (Z.of_nat n)).
Proof.
  intros Hab. induction n as [|n IH].
  - simpl. lia.
  - rewrite seq_S, map_app, filter_app, length_app, IH. simpl map. simpl filter.
    destruct (Z.ltb_spec a (Z.of_nat n + 1)), (Z.leb_spec (Z.of_nat n + 1) b);
      simpl; lia.
Qed.

Lemma picked_type_interval (row : WeatherSeasonChances) (rnd : Z) :
  well_formed_row row ->
  let rain := rainChance row in
  let snow := snowChance row in
  let storm := stormChance row in
  WeatherType_eqb (picked_type row rnd) WEATHER_TYPE_RAIN = (rnd <=? rain) /\
  WeatherType_eqb (picked_type row rnd) WEATHER_TYPE_SNOW =
    (rain <? rnd) && (rnd <=? rain + snow) /\
  WeatherType_eqb (picked_type row rnd) WEATHER_TYPE_STORM =
    (rain + snow <? rnd) && (rnd <=? rain + snow + storm) /\
  WeatherType_eqb (picked_type row rnd) WEATHER_TYPE_FINE = (rain + snow + storm <? rnd).
Proof.
  intros Hrow. cbv zeta. rewrite (picked_type_cases row rnd Hrow).
  destruct Hrow as (Hr & Hs & Ht & Hsum).
  destruct (Z.leb_spec rnd (rainChance row)),
           (Z.leb_spec rnd (rainChance row + snowChance row)),
           (Z.leb_spec rnd (rainChance row + snowChance row + stormChance row)),
           (Z.ltb_spec (rainChance row) rnd),
           (Z.ltb_spec (rainChance row + snowChance row) rnd),
           (Z.ltb_spec (rainChance row + snowChance row + stormChance row) rnd);
    simpl; repeat split; try reflexivity; lia.
Qed.

Lemma ReGenerate_type_from_fine (s : Sys) (wd : WeatherData) :
  m_weatherChances (self s) = Some wd ->
  30 <= urand_value 0 99 (world s) ->
  cur_type s = WEATHER_TYPE_FINE ->
  cur_type (snd (ReGenerate s)) =
  picked_type (data_at wd (season_of_yday (game_yday (world s))))
    (urand_value 1 100 (world (with_rng_next s))).
Proof.
  intros Hwd Hu Ht.
  destruct (ReGenerate_from_fine s wd Hwd Hu Ht) as (s2 & HR & Hw).
  rewrite HR, snd_run, pick_new_weather_type, Hw. reflexivity.
Qed.

Lemma with_draws_type (u raw : Z) (s : Sys) (wd : WeatherData) :
  m_weatherChances (self s) = Some wd ->
  cur_type s = WEATHER_TYPE_FINE ->
  30 <= u <= 99 -> 0 <= raw <= 99 ->
  cur_type (snd (ReGenerate (with_draws u raw s))) =
  picked_type (data_at wd (season_of_yday (game_yday (world s)))) (raw + 1).
Proof.
  intros Hwd Ht Hu Hraw.
  assert (Hdraw : urand_value 0 99 (world (with_draws u raw s)) = u).
  { unfold urand_value, with_draws; simpl. rewrite Nat.eqb_refl.
    rewrite Z.mod_small; lia. }
  rewrite (ReGenerate_type_from_fine (with_draws u raw s) wd Hwd);
    [|rewrite Hdraw; lia|exact Ht].
  f_equal. unfold urand_value.
  change (urand_tape (world (with_rng_next (with_draws u raw s)))
            (rng_pos (world (with_rng_next (with_draws u raw s)))))
    with (if Nat.eqb (S (rng_pos (world s))) (rng_pos (world s)) then u else raw).
  replace (Nat.eqb (S (rng_pos (world s))) (rng_pos (world s))) with false
    by (symmetry; apply Nat.eqb_neq; lia).
  rewrite Z.mod_small; lia.
Qed.

Lemma raw_draws_range (raw : Z) : In raw raw_draws -> 0 <= raw <= 99.
Proof.
  unfold raw_draws. intros H. apply in_map_iff in H. destruct H as (n & <- & Hn).
  apply in_seq in Hn. lia.
Qed.

(** X6. The chances of the table are the chances of the pick.  In a zone of
    type Fine whose row for the season is well formed, and for any first
    draw [u] in [30,99], exactly rain% of the 100 equally likely values of
    the next raw draw lead ReGenerate to Rain, snow% to Snow, storm% to
    Storm, and the remaining ones to Fine. *)
Theorem chances_are_honoured (s : Sys) (wd : WeatherData) (u : Z) :
  m_weatherChances (self s) = Some wd ->
  cur_type s = WEATHER_TYPE_FINE ->
  30 <= u <= 99 ->
  well_formed_row (data_at wd (season_of_yday (game_yday (world s)))) ->
  let row := data_at wd (season_of_yday (game_yday (world s))) in
  draws_leading_to WEATHER_TYPE_RAIN u s = Z.to_nat (rainChance row) /\
  draws_leading_to WEATHER_TYPE_SNOW u s = Z.to_nat (snowChance row) /\
  draws_leading_to WEATHER_TYPE_STORM u s = Z.to_nat (stormChance row) /\
  draws_leading_to WEATHER_TYPE_FINE u s =
    Z.to_nat (100 - (rainChance row + snowChance row + stormChance row)).
Proof.
  intros Hwd Ht Hu Hrow. cbv zeta.
  set (row := data_at wd (season_of_yday (game_yday (world s)))) in *.
  assert (Hcount : forall t a b,
             0 <= a <= b -> b <= 100 ->
             (forall rnd, 1 <= rnd <= 100 ->
                WeatherType_eqb (picked_type row rnd) t = (a <? rnd) && (rnd <=? b)) ->
             draws_leading_to t u s = Z.to_nat (b - a)).
  { intros t a b Hab Hb Hiff. unfold draws_leading_to.
    rewrite (filter_ext_in _ (fun raw => (a <? raw + 1) && (raw + 1 <=? b))).
    - unfold raw_draws. rewrite (count_interval 100 a b Hab). f_equal. lia.
    - intros raw Hin. apply raw_draws_range in Hin.
      rewrite (with_draws_type u raw s wd Hwd Ht Hu Hin). fold row.
      apply Hiff. lia. }
  pose proof Hrow as (Hr & Hs & Hst & Hsum).
  split; [|split; [|split]].
  - rewrite (Hcount WEATHER_TYPE_RAIN 0 (rainChance row)); [f_equal; lia|lia|lia|].
    intros rnd Hrnd. destruct (picked_type_interval row rnd Hrow) as (-> & _).
    destruct (Z.ltb_spec 0 rnd); [reflexivity|lia].
  - rewrite (Hcount WEATHER_TYPE_SNOW (rainChance row) (rainChance row + snowChance row));
      [f_equal; lia|lia|lia|].
    intros rnd Hrnd. now destruct (picked_type_interval row rnd Hrow) as (_ & -> & _).
  - rewrite (Hcount WEATHER_TYPE_STORM (rainChance row + snowChance row)
               (rainChance row + snowChance row + stormChance row));
      [f_equal; lia|lia|lia|].
    intros rnd Hrnd. now destruct (picked_type_interval row rnd Hrow) as (_ & _ & -> & _).
  - rewrite (Hcount WEATHER_TYPE_FINE
               (rainChance row + snowChance row + stormChance row) 100);
      [reflexivity|lia|lia|].
    intros rnd Hrnd. destruct (picked_type_interval row rnd Hrow) as (_ & _ & _ & ->).
    destruct (Z.leb_spec rnd 100); [now rewrite andb_true_r|lia].
Qed.

Lemma chances_are_honoured_witness :
  m_weatherChances (self sample_fine) = Some sample_chances /\
  cur_type sample_fine = WEATHER_TYPE_FINE /\
  well_formed_row sample_row /\
  draws_leading_to WEATHER_TYPE_RAIN 45 sample_fine = 50%nat /\
  draws_leading_to WEATHER_TYPE_SNOW 45 sample_fine = 30%nat /\
  draws_leading_to WEATHER_TYPE_STORM 45 sample_fine = 10%nat /\
  draws_leading_to WEATHER_TYPE_FINE 45 sample_fine = 10%nat.
Proof.
  assert (H1 : m_weatherChances (self sample_fine) = Some sample_chances) by reflexivity.
  assert (H2 : cur_type sample_fine = WEATHER_TYPE_FINE) by reflexivity.
  assert (H3 : 30 <= 45 <= 99) by lia.
  assert (H4 : well_formed_row sample_row) by (unfold well_formed_row; simpl; lia).
  pose proof (chances_are_honoured sample_fine sample_chances 45 H1 H2 H3 H4) as H.
  cbv zeta in H. destruct H as (Hr & Hs & Ht & Hf).
  split; [exact H1|]. split; [exact H2|]. split; [exact H4|].
  split; [exact Hr|]. split; [exact Hs|]. split; [exact Ht|exact Hf].
Defined.

(** ** The branches on sample states *)

Lemma get_better_branch_witness :
  m_weatherChances (self sample_busy) = Some sample_chances /\
  30 <= urand_value 0 99 (world sample_busy) <= 59 /\
  cur_type sample_busy <> WEATHER_TYPE_FINE /\
  f32_lt (cur_intensity sample_busy) f_0_33333334 = false /\
  ReGenerate sample_busy = (true, with_intensity f_zero (after_draw sample_busy)).
Proof.
  assert (H1 : m_weatherChances (self sample_busy) = Some sample_chances)
    by reflexivity.
  assert (H2 : 30 <= urand_value 0 99 (world sample_busy) <= 59)
    by (vm_compute; split; discriminate).
  assert (H3 : cur_type sample_busy <> WEATHER_TYPE_FINE) by discriminate.
  assert (H4 : f32_lt (cur_intensity sample_busy) f_0_33333334 = false)
    by reflexivity.
  split; [exact H1|]. split; [exact H2|]. split; [exact H3|]. split; [exact H4|].
  rewrite (get_better_branch sample_busy sample_chances H1 H2 H3 H4). reflexivity.
Defined.

Lemma get_worse_branch_witness :
  m_weatherChances (self (with_draws 70 0 sample_light)) = Some sample_chances /\
  60 <= urand_value 0 99 (world (with_draws 70 0 sample_light)) <= 89 /\
  cur_type (with_draws 70 0 sample_light) <> WEATHER_TYPE_FINE /\
  fst (ReGenerate (with_draws 70 0 sample_light)) = true /\
  cur_intensity (snd (ReGenerate (with_draws 70 0 sample_light))) =
    f32_add f_0_27 f_0_33333334.
Proof.
  assert (H1 : m_weatherChances (self (with_draws 70 0 sample_light))
               = Some sample_chances) by reflexivity.
  assert (H2 : 60 <= urand_value 0 99 (world (with_draws 70 0 sample_light)) <= 89)
    by (vm_compute; split; discriminate).
  assert (H3 : cur_type (with_draws 70 0 sample_light) <> WEATHER_TYPE_FINE)
    by discriminate.
  split; [exact H1|]. split; [exact H2|]. split; [exact H3|].
  rewrite (get_worse_branch _ sample_chances H1 H2 H3). split; reflexivity.
Defined.

Lemma ReGenerate_false_means_unchanged_witness :
  m_weatherChances (self (with_draws 95 95 sample_fine)) = Some sample_chances /\
  fst (ReGenerate (with_draws 95 95 sample_fine)) = false /\
  cur_type (snd (ReGenerate (with_draws 95 95 sample_fine))) = WEATHER_TYPE_FINE /\
  GetWeatherState (snd (ReGenerate (with_draws 95 95 sample_fine))) = WEATHER_STATE_FINE.
Proof.
  assert (H1 : m_weatherChances (self (with_draws 95 95 sample_fine))
               = Some sample_chances) by reflexivity.
  assert (H2 : fst (ReGenerate (with_draws 95 95 sample_fine)) = false)
    by reflexivity.
  destruct (ReGenerate_false_means_unchanged _ sample_chances H1 H2) as (Ht & _ & Hs).
  split; [exact H1|]. split; [exact H2|]. split; [exact Ht|exact Hs].
Defined.

(** ** What no call changes *)

Lemma Update_configuration (diff : Z) (s : Sys) :
  configuration (snd (Update diff s)) = configuration s.
Proof.
  rewrite Update_eq. cbv zeta.
  destruct (IntervalTimer_Passed (cur_timer (tick_timer diff s))); [|reflexivity].
  set (s2 := with_timer _ (tick_timer diff s)).
  pose proof (ReGenerate_frame s2) as (Hz & _ & Hc & _).
  assert (Hr : configuration (snd (ReGenerate s2)) = configuration s)
    by (unfold configuration; rewrite Hz, Hc; reflexivity).
  assert (Hu : configuration (snd (UpdateWeather_default (snd (ReGenerate s2))))
               = configuration s).
  { unfold configuration, UpdateWeather_default. rewrite UpdateWeather_self. exact Hr. }
  destruct (fst (ReGenerate s2)); [|exact Hr].
  destruct (fst (UpdateWeather_default (snd (ReGenerate s2)))); exact Hu.
Qed.

Lemma SetWeather_configuration (t : WeatherType) (i : float32) (ts : bool) (s : Sys) :
  configuration (snd (SetWeather t i ts s)) = configuration s.
Proof.
  rewrite SetWeather_eq.
  destruct (WeatherType_eqb (cur_type s) t && f32_eq (cur_intensity s) i); [reflexivity|].
  simpl snd. unfold configuration. rewrite UpdateWeather_self. reflexivity.
Qed.

(** X14. An object keeps the zone and the chance table it was constructed
    with: no sequence of Update, SetWeather and player synchronisations
    changes them, so an object without chance table never gets one and stays
    on the no-table path of ReGenerate for life. *)
Theorem configuration_is_for_life (calls : list Call) :
  (forall s sent, configuration (fst (run_calls calls s sent)) = configuration s) /\
  (forall zone chances timer0 interval w,
     configuration
       (fst (run_calls calls
               {| self := Weather_new zone chances timer0 interval; world := w |} []))
     = (zone, chances)).
Proof.
  assert (H : forall s sent,
             configuration (fst (run_calls calls s sent)) = configuration s).
  { induction calls as [|c rest IH]; intros s sent; [reflexivity|].
    destruct c as [diff|t i ts|player|player|found yday n]; simpl.
    - pose proof (Update_configuration diff s) as Hu.
      destruct (Update diff s) as [[|] s']; simpl in *; [now rewrite IH|exact Hu].
    - now rewrite IH, SetWeather_configuration.
    - apply IH.
    - apply IH.
    - now rewrite IH. }
  split; [exact H|]. intros. now rewrite H.
Qed.

(** ** The seasons of the year *)

Lemma season_of_yday_floor (d : Z) :
  0 <= d <= 365 -> season_of_yday d = ((d - 78 + 365) / 91) mod 4.
Proof.
  intros Hd. unfold season_of_yday, u32.
  rewrite Z.quot_div_nonneg by lia.
  assert (Hq : 0 <= (d - 78 + 365) / 91) by (apply Z.div_pos; lia).
  rewrite Z.rem_mod_nonneg by lia.
  pose proof (Z.mod_pos_bound ((d - 78 + 365) / 91) 4 ltac:(lia)) as Hm.
  apply Z.mod_small. lia.
Qed.

(** X15. The season ReGenerate uses, and names in its log line, by day of
    the year: winter up to day 76, spring for days 77 to 167, summer for
    168 to 258, fall for 259 to 349, and winter again from day 350 to the
    end of the year, day 365 of a leap year included.  Each season starts
    one day before the multiples of 91 counted from day 78, because line
    109 adds 365 where the multiple of 91 is 364. *)
Theorem seasons_of_the_year (d : Z) :
  0 <= d <= 365 ->
  season_of_yday d = season_by_day d /\
  seasonName (season_of_yday d) =
    (if d <? 77 then "winter"%string
     else if d <? 168 then "spring"%string
     else if d <? 259 then "summer"%string
     else if d <? 350 then "fall"%string
     else "winter"%string).
Proof.
  intros Hd.
  assert (H : season_of_yday d = season_by_day d).
  { rewrite (season_of_yday_floor d Hd). unfold season_by_day.
    assert (Hq : forall q, 91 * q <= d + 287 < 91 * q + 91 ->
                           (d - 78 + 365) / 91 = q).
    { intros q Hq. symmetry. apply (Z.div_unique_pos _ _ q (d + 287 - 91 * q)); lia. }
    destruct (Z.ltb_spec d 77); [rewrite (Hq 3) by lia; reflexivity|].
    destruct (Z.ltb_spec d 168); [rewrite (Hq 4) by lia; reflexivity|].
    destruct (Z.ltb_spec d 259); [rewrite (Hq 5) by lia; reflexivity|].
    destruct (Z.ltb_spec d 350); [rewrite (Hq 6) by lia; reflexivity|].
    rewrite (Hq 7) by lia. reflexivity. }
  split; [exact H|]. rewrite H. unfold season_by_day.
  destruct (d <? 77); [reflexivity|]. destruct (d <? 168); [reflexivity|].
  destruct (d <? 259); [reflexivity|]. destruct (d <? 350); reflexivity.
Qed.

Lemma seasons_of_the_year_witness :
  0 <= 365 <= 365 /\ season_of_yday 365 = 3 /\
  seasonName (season_of_yday 365) = "winter"%string /\
  seasonName (season_of_yday 77) = "spring"%string /\
  seasonName (season_of_yday 168) = "summer"%string.
Proof.
  assert (H : 0 <= 365 <= 365) by lia.
  split; [exact H|].
  destruct (seasons_of_the_year 365 H) as [H1 H2].
  destruct (seasons_of_the_year 77 ltac:(lia)) as [_ H3].
  destruct (seasons_of_the_year 168 ltac:(lia)) as [_ H4].
  split; [rewrite H1; reflexivity|]. split; [rewrite H2; reflexivity|].
  split; [rewrite H3; reflexivity|rewrite H4; reflexivity].
Defined.
